(** * AI Hawk relevance scorer: the request handler of [main.py]

    A shallow embedding of [analyze_job_posting], the single POST route of
    the service, and of the Python operations it relies on; followed by the
    properties of the scoring gate, of the audit log and of the error paths.

    The handler talks to three collaborators that are not part of the
    repository: Flask (the request body), the Gemini client (the scoring
    call) and Firestore (the [application_log] collection).  Their answers
    are the fields of an environment [Env]; the handler is a program in a
    state-and-exception monad over the contents of [application_log] and a
    chronological trace of the outbound calls. *)

From Stdlib Require Import ZArith QArith Floats Ascii String.
From stdpp Require Import gmap strings list fin_maps.

#[local] Set Warnings "-register-all".
#[local] Open Scope string_scope.
#[local] Open Scope Z_scope.

(** ** Python values *)

(** What [json.loads] and [request.get_json] can return: [None], [bool],
    [int] (unbounded), [float] (IEEE binary64, with [nan] and the
    infinities, which Python's decoder accepts), [str], [list], and [dict]
    with [str] keys. *)
Inductive pyval :=
  | PyNone
  | PyBool (b : bool)
  | PyInt (z : Z)
  | PyFloat (f : float)
  | PyStr (s : string)
  | PyList (l : list pyval)
  | PyDict (d : gmap string pyval).

(** [type(v).__name__] *)
Definition type_name (v : pyval) : string :=
  match v with
  | PyNone => "NoneType"
  | PyBool _ => "bool"
  | PyInt _ => "int"
  | PyFloat _ => "float"
  | PyStr _ => "str"
  | PyList _ => "list"
  | PyDict _ => "dict"
  end.

(** A raised exception: its class and [str(e)].  The exceptions of this
    development are instances of [Exception], the ones [except Exception]
    catches; [SystemExit], [KeyboardInterrupt] and a call that never returns
    are outside it. *)
Record exn := Exn { exn_class : string; exn_str : string }.

Inductive result (A : Type) :=
  | Ok (a : A)
  | Raise (e : exn).
Arguments Ok {A} a.
Arguments Raise {A} e.

(** [bool(v)]: the truth value tested by [not v]. *)
Definition py_truthy (v : pyval) : bool :=
  match v with
  | PyNone => false
  | PyBool b => b
  | PyInt z => negb (z =? 0)
  | PyFloat f => negb (PrimFloat.eqb f 0%float)
  | PyStr s => negb (String.eqb s "")
  | PyList l => match l with [] => false | _ => true end
  | PyDict d => negb (bool_decide (d = ∅))
  end.

Definition py_not (v : pyval) : bool := negb (py_truthy v).

(** [o.get(k, dflt)]: only a [dict] has the method. *)
Definition py_get (o : pyval) (k : string) (dflt : pyval) : result pyval :=
  match o with
  | PyDict d => Ok (default dflt (d !! k))
  | _ => Raise (Exn "AttributeError"
                  ("'" ++ type_name o ++ "' object has no attribute 'get'"))
  end.

(** The gate's limit, as the [int] literal and as the [float] it is
    compared as. *)
Definition THRESHOLD : Z := 80.
Definition THRESHOLD_FLOAT : float := 80%float.

(** [v < 80].  [bool] is a subclass of [int]; a [float] is compared with
    the [int] by value, and 80 is a binary64 number; every other type
    raises. *)
Definition py_lt_80 (v : pyval) : result bool :=
  match v with
  | PyBool b => Ok (Z.b2z b <? THRESHOLD)
  | PyInt z => Ok (z <? THRESHOLD)
  | PyFloat f => Ok (PrimFloat.ltb f THRESHOLD_FLOAT)
  | _ => Raise (Exn "TypeError"
                  ("'<' not supported between instances of '"
                   ++ type_name v ++ "' and 'int'"))
  end.

(** ** The value of a number *)

(** The number a Python value stands for, when it is one. *)
Inductive number :=
  | Finite (q : Q)
  | PosInf
  | NegInf
  | NaN.

(** [m * 2^e] as a rational. *)
Definition dyadic (m e : Z) : Q :=
  if 0 <=? e then inject_Z (m * 2 ^ e) else Qmake m (Z.to_pos (2 ^ (- e))).

Definition SF2number (f : spec_float) : number :=
  match f with
  | S754_zero _ => Finite 0
  | S754_infinity s => if s then NegInf else PosInf
  | S754_nan => NaN
  | S754_finite s m e => Finite (dyadic (if s then Z.neg m else Z.pos m) e)
  end.

Definition float_number (f : float) : number := SF2number (Prim2SF f).

Definition py_number (v : pyval) : option number :=
  match v with
  | PyBool b => Some (Finite (inject_Z (Z.b2z b)))
  | PyInt z => Some (Finite (inject_Z z))
  | PyFloat f => Some (float_number f)
  | _ => None
  end.

(** [weighted_score < 80] and [weighted_score >= 80], read on the numbers. *)
Definition below_threshold (v : pyval) : Prop :=
  match py_number v with
  | Some (Finite q) => (q < inject_Z THRESHOLD)%Q
  | Some NegInf => True
  | _ => False
  end.

Definition at_least_threshold (v : pyval) : Prop :=
  match py_number v with
  | Some (Finite q) => (inject_Z THRESHOLD <= q)%Q
  | Some PosInf => True
  | _ => False
  end.

(** ** Collaborators, state and effects *)

(** The arguments of [gemini_client.models.generate_content]. *)
Record generate_request := GenerateRequest {
  model : string;
  contents : string;
  system_instruction : string;
  response_mime_type : string;
  response_schema : pyval
}.

(** A value of a Firestore document field: a Python value, or the sentinel
    [firestore.SERVER_TIMESTAMP] that the store replaces by its write
    time. *)
Inductive field :=
  | Value (v : pyval)
  | SERVER_TIMESTAMP.

(** What one invocation of the handler gets from outside the source file. *)
Record Env := {
  (** contents of data/master_profile.json, read at start-up *)
  MASTER_PROFILE : string;
  (** data/schema/score_schema.json, loaded at start-up *)
  SCORE_SCHEMA : pyval;
  (** [format(v)] of a value that is not a [str] *)
  builtin_format : pyval -> string;
  (** [request.get_json()]: the decoded body, or the exception Flask raises *)
  request_get_json : result pyval;
  (** the scoring call followed by [response.text] ([None] or a [str]) *)
  generate_content : generate_request -> result (option string);
  (** [json.loads] on a [str] *)
  json_loads : string -> result pyval;
  (** whether start-up left the globals [gemini_client] and [db] bound
      (lines 12 to 17 leave one or both unbound when a constructor raises) *)
  gemini_client_bound : bool;
  db_bound : bool;
  (** the exception of [types.GenerateContentConfig(...)], if it raises *)
  config_fault : option exn;
  (** the exception of [document(job_id)] for an id that is not a [str] *)
  document_id_error : pyval -> exn;
  (** the exception of [document(job_id)] for a [str] the client does not
      take as the id of a document (one with an odd number of ["/"], say) *)
  document_fault : string -> option exn;
  (** the exception of [set], if the write to this document fails *)
  set_fault : string -> gmap string field -> option exn
}.

(** The outbound calls of the handler, in the order they happen.  A
    [DocumentSet] carries whether the store took the write. *)
Inductive event :=
  | Generate (req : generate_request)
  | DocumentSet (id : string) (data : gmap string field) (stored : bool)
  | Print (line : string).

Record state := State {
  application_log : gmap string (gmap string field);
  trace : list event
}.

Definition M (A : Type) : Type := state -> result A * state.

Definition ret {A} (a : A) : M A := fun st => (Ok a, st).

Definition bind {A B} (m : M A) (k : A -> M B) : M B :=
  fun st =>
    match m st with
    | (Ok a, st') => k a st'
    | (Raise e, st') => (Raise e, st')
    end.

Definition raise {A} (e : exn) : M A := fun st => (Raise e, st).

Definition lift {A} (r : result A) : M A := fun st => (r, st).

Definition emit (ev : event) : M unit :=
  fun st => (Ok tt, State (application_log st) (trace st ++ [ev])).

Definition update_log
    (f : gmap string (gmap string field) -> gmap string (gmap string field))
    : M unit :=
  fun st => (Ok tt, State (f (application_log st)) (trace st)).

(** [try: body except Exception as e: handler(e)] *)
Definition try_except {A} (body : M A) (handler : exn -> M A) : M A :=
  fun st =>
    match body st with
    | (Ok a, st') => (Ok a, st')
    | (Raise e, st') => handler e st'
    end.

#[export] Instance M_ret : MRet M := @ret.
#[export] Instance M_bind : MBind M := fun A B k m => bind m k.

(** Modelled from the spec: the document store is not part of the
    repository.  [set(data)] without [merge] on the document keyed [id]
    of [application_log] upserts: it replaces whatever the key held by
    [data] (spec 4.5, overwrite semantics).  The log holds the data as the
    handler sends it, the [SERVER_TIMESTAMP] sentinel included: the write
    time the store puts in its place is not represented. *)
Definition firestore_set (id : string) (data : gmap string field)
    (log : gmap string (gmap string field)) : gmap string (gmap string field) :=
  <[id := data]> log.

Section Handler.

Variable env : Env.

(** What is evaluated at line 58 before the call is made: the name
    [gemini_client], a NameError when start-up left it unbound, then the
    [config] argument. *)
Definition client_fault : option exn :=
  if gemini_client_bound env then config_fault env
  else Some (Exn "NameError" "name 'gemini_client' is not defined").

(** [db.collection("application_log").document(job_id)]: the key of the
    document, or the exception raised: the NameError of an unbound [db],
    or the client's refusal of the id. *)
Definition document (job_id : pyval) : result string :=
  if db_bound env then
    match job_id with
    | PyStr id =>
        match document_fault env id with
        | Some e => Raise e
        | None => Ok id
        end
    | _ => Raise (document_id_error env job_id)
    end
  else Raise (Exn "NameError" "name 'db' is not defined").

(** [db.collection("application_log").document(job_id).set(data)] *)
Definition document_set (job_id : pyval) (data : gmap string field) : M unit :=
  id ← lift (document job_id);
  match set_fault env id data with
  | Some e => emit (DocumentSet id data false) ;; raise e
  | None =>
      emit (DocumentSet id data true) ;;
      update_log (firestore_set id data)
  end.

(** [{job_description}] inside the f-string *)
Definition py_format (v : pyval) : string :=
  match v with
  | PyStr s => s
  | _ => builtin_format env v
  end.

Definition nl : string := String "010"%char EmptyString.

Definition SYSTEM_INSTRUCTION : string :=
  nl ++ "You are the AI Hawk Relevance Scorer. Your task is to analyze a Job Description (JD) and a candidate profile."
  ++ nl ++ "Score the job based on the following weighted criteria: Cloud Run Usage (20%), GCP Database Usage (20%),"
  ++ nl ++ "Google AI Usage (20%), Functional Demo (15%), Blog Excellence (15%), Industry Impact (10%)."
  ++ nl ++ "You MUST return the output as a JSON object matching the provided schema."
  ++ nl.

Definition build_prompt (job_description : pyval) : string :=
  nl ++ "        Candidate Profile (Context): " ++ MASTER_PROFILE env
  ++ nl ++ nl ++ "        Job Description to Score: " ++ py_format job_description
  ++ nl ++ nl ++ "        Perform the scoring and identify missing keywords based on the six criteria."
  ++ nl ++ "        ".

(** [json.loads(response.text)] *)
Definition loads_text (text : option string) : result pyval :=
  match text with
  | Some s => json_loads env s
  | None => Raise (Exn "TypeError"
              "the JSON object must be str, bytes or bytearray, not NoneType")
  end.

(** A response: the dict given to [jsonify], and the status code. *)
Definition response : Type := gmap string pyval * Z.

Definition rejected_entry (weighted_score : pyval) : gmap string field :=
  {[ "status" := Value (PyStr "REJECTED");
     "score" := Value weighted_score;
     "reason" := Value (PyStr "Score below 80% threshold");
     "timestamp" := SERVER_TIMESTAMP ]}.

Definition ready_entry (weighted_score score_result job_data : pyval)
    : gmap string field :=
  {[ "status" := Value (PyStr "READY_FOR_SUBMISSION");
     "score" := Value weighted_score;
     "gemini_details" := Value score_result;
     "job_data" := Value job_data;
     "timestamp" := SERVER_TIMESTAMP ]}.

(** The dicts given to [jsonify]. *)
Definition missing_fields_body : gmap string pyval :=
  {[ "status" := PyStr "error";
     "message" := PyStr "Missing job_id or job_description" ]}.

Definition rejected_body (weighted_score : pyval) : gmap string pyval :=
  {[ "status" := PyStr "rejected"; "score" := weighted_score ]}.

Definition success_body (weighted_score score_result : pyval)
    : gmap string pyval :=
  {[ "status" := PyStr "success"; "score" := weighted_score;
     "details" := score_result ]}.

Definition error_body (message : string) : gmap string pyval :=
  {[ "status" := PyStr "error"; "message" := PyStr message ]}.

(** The call of line 58. *)
Definition scoring_request (job_description : pyval) : generate_request :=
  GenerateRequest "gemini-2.5-flash" (build_prompt job_description)
                  SYSTEM_INSTRUCTION "application/json" (SCORE_SCHEMA env).

(** [gemini_client.models.generate_content(...)] followed by
    [response.text]: the call is made only when nothing raises before it. *)
Definition generate_content_call (req : generate_request)
    : M (option string) :=
  match client_fault with
  | Some e => raise e
  | None => emit (Generate req) ;; lift (generate_content env req)
  end.

(** [return jsonify(body), code] *)
Definition respond (body : gmap string pyval) (code : Z) : M response :=
  ret (body, code).

(** The body of the [try] block. *)
Definition handler_body : M response :=
  job_data ← lift (request_get_json env);
  job_id ← lift (py_get job_data "job_id" PyNone);
  job_description ← lift (py_get job_data "job_description" PyNone);
  if py_not job_id || py_not job_description then
    respond missing_fields_body 400
  else
    text ← generate_content_call (scoring_request job_description);
    score_result ← lift (loads_text text);
    weighted_score ← lift (py_get score_result "weighted_score" (PyInt 0));
    below ← lift (py_lt_80 weighted_score);
    if (below : bool) then
      document_set job_id (rejected_entry weighted_score) ;;
      respond (rejected_body weighted_score) 200
    else
      document_set job_id (ready_entry weighted_score score_result job_data) ;;
      respond (success_body weighted_score score_result) 200.

Definition analyze_job_posting : M response :=
  try_except handler_body
    (fun e =>
       emit (Print ("An error occurred: " ++ exn_str e)) ;;
       respond (error_body (exn_str e)) 500).

End Handler.

(** ** Reading a run *)

(** The [set] calls of a trace, and those the store took. *)
Definition set_calls (evs : list event) : list (string * gmap string field) :=
  omap (fun ev => match ev with
                  | DocumentSet id d _ => Some (id, d)
                  | _ => None
                  end) evs.

Definition stored_writes (evs : list event)
    : list (string * gmap string field) :=
  omap (fun ev => match ev with
                  | DocumentSet id d true => Some (id, d)
                  | _ => None
                  end) evs.

Definition model_calls (evs : list event) : list generate_request :=
  omap (fun ev => match ev with
                  | Generate req => Some req
                  | _ => None
                  end) evs.

(** [job_data.get(k)] *)
Definition field_of (job_data : gmap string pyval) (k : string) : pyval :=
  default PyNone (job_data !! k).

(** [score_result.get("weighted_score", 0)] *)
Definition weighted_score_of (score_result : gmap string pyval) : pyval :=
  default (PyInt 0) (score_result !! "weighted_score").

(** The test of line 46 lets the request through. *)
Definition validated (job_data : gmap string pyval) : Prop :=
  py_truthy (field_of job_data "job_id") = true /\
  py_truthy (field_of job_data "job_description") = true.

(** A field of the request body is missing, or present and empty. *)
Definition empty_value (v : pyval) : Prop :=
  v = PyNone \/ v = PyStr "" \/ v = PyList [] \/ v = PyDict ∅.

Definition missing_or_empty (job_data : gmap string pyval) (k : string)
    : Prop :=
  job_data !! k = None \/ exists v, job_data !! k = Some v /\ empty_value v.

(** The request body did not decode to a JSON object. *)
Definition not_a_json_object (body : result pyval) : Prop :=
  match body with
  | Raise _ => True
  | Ok (PyDict _) => False
  | Ok _ => True
  end.

(** The request is let through, the scoring call is made and returns
    text that decodes to the dict [score_result]: the run arrives at
    line 73. *)
Record reaches_gate (env : Env) (job_data score_result : gmap string pyval)
    : Prop := ReachesGate {
  gate_request : request_get_json env = Ok (PyDict job_data);
  gate_validated : validated job_data;
  gate_client : client_fault env = None;
  gate_scored :
    exists text,
      generate_content env
        (scoring_request env (field_of job_data "job_description")) = Ok text
      /\ loads_text env text = Ok (PyDict score_result)
}.

(** The entry and the response body of each branch of the gate. *)
Definition gate_entry (below : bool) (job_data score_result : gmap string pyval)
    : gmap string field :=
  if below then rejected_entry (weighted_score_of score_result)
  else ready_entry (weighted_score_of score_result)
                   (PyDict score_result) (PyDict job_data).

Definition gate_body (below : bool) (score_result : gmap string pyval)
    : gmap string pyval :=
  if below then rejected_body (weighted_score_of score_result)
  else success_body (weighted_score_of score_result) (PyDict score_result).

(** The ways a validated request raises after the scoring call is made and
    before any [set] call is. *)
Inductive fails_before_write (env : Env) (job_data : gmap string pyval)
    : exn -> Prop :=
  | FailModelCall e :
      generate_content env
        (scoring_request env (field_of job_data "job_description")) = Raise e ->
      fails_before_write env job_data e
  | FailParse text e :
      generate_content env
        (scoring_request env (field_of job_data "job_description")) = Ok text ->
      loads_text env text = Raise e ->
      fails_before_write env job_data e
  | FailNotObject text v e :
      generate_content env
        (scoring_request env (field_of job_data "job_description")) = Ok text ->
      loads_text env text = Ok v ->
      py_get v "weighted_score" (PyInt 0) = Raise e ->
      fails_before_write env job_data e
  | FailCompare score_result e :
      reaches_gate env job_data score_result ->
      py_lt_80 (weighted_score_of score_result) = Raise e ->
      fails_before_write env job_data e
  | FailDocument score_result below e :
      reaches_gate env job_data score_result ->
      py_lt_80 (weighted_score_of score_result) = Ok below ->
      document env (field_of job_data "job_id") = Raise e ->
      fails_before_write env job_data e.

(** What the [except] clause prints and answers. *)
Definition error_line (e : exn) : event :=
  Print ("An error occurred: " ++ exn_str e).

Definition error_response (e : exn) : result response :=
  Ok (error_body (exn_str e), 500).

(** The exception that ends the [try] block on a body that is not a JSON
    object. *)
Definition body_exn (body : result pyval) : exn :=
  match body with
  | Raise e => e
  | Ok v => Exn "AttributeError"
              ("'" ++ type_name v ++ "' object has no attribute 'get'")
  end.

(** The six ways the [try] block can go from the log [log]: it returns a
    response, or raises. *)
Inductive body_spec (env : Env) (log : gmap string (gmap string field))
    : result response * state -> Prop :=
  | BodyBad :
      not_a_json_object (request_get_json env) ->
      body_spec env log
        (Raise (body_exn (request_get_json env)), State log [])
  | BodyInvalid job_data :
      request_get_json env = Ok (PyDict job_data) ->
      ~ validated job_data ->
      body_spec env log (Ok (missing_fields_body, 400), State log [])
  | BodyFailedBeforeCall job_data e :
      request_get_json env = Ok (PyDict job_data) ->
      validated job_data ->
      client_fault env = Some e ->
      body_spec env log (Raise e, State log [])
  | BodyFailedBeforeWrite job_data e :
      request_get_json env = Ok (PyDict job_data) ->
      validated job_data ->
      client_fault env = None ->
      fails_before_write env job_data e ->
      body_spec env log
        (Raise e,
         State log
           [Generate (scoring_request env
                        (field_of job_data "job_description"))])
  | BodyWriteFailed job_data score_result id below e :
      reaches_gate env job_data score_result ->
      document env (field_of job_data "job_id") = Ok id ->
      py_lt_80 (weighted_score_of score_result) = Ok below ->
      set_fault env id (gate_entry below job_data score_result) = Some e ->
      body_spec env log
        (Raise e,
         State log
           [Generate (scoring_request env
                        (field_of job_data "job_description"));
            DocumentSet id (gate_entry below job_data score_result) false])
  | BodyStored job_data score_result id below :
      reaches_gate env job_data score_result ->
      document env (field_of job_data "job_id") = Ok id ->
      py_lt_80 (weighted_score_of score_result) = Ok below ->
      set_fault env id (gate_entry below job_data score_result) = None ->
      body_spec env log
        (Ok (gate_body below score_result, 200),
         State (firestore_set id (gate_entry below job_data score_result) log)
           [Generate (scoring_request env
                        (field_of job_data "job_description"));
            DocumentSet id (gate_entry below job_data score_result) true]).

(** The [except] clause, on the outcome of the [try] block. *)
Definition except_clause (out : result response * state)
    : result response * state :=
  match out with
  | (Ok r, st) => (Ok r, st)
  | (Raise e, st) =>
      (error_response e,
       State (application_log st) (trace st ++ [error_line e]))
  end.

(** One run from the log [log], with a fresh trace. *)
Definition run (env : Env) (log : gmap string (gmap string field))
    : result response * state :=
  analyze_job_posting env (State log []).

Definition run_events (env : Env) (log : gmap string (gmap string field))
    : list event :=
  trace (snd (run env log)).

Definition run_log (env : Env) (log : gmap string (gmap string field))
    : gmap string (gmap string field) :=
  application_log (snd (run env log)).

(** The log after serving a sequence of requests, one after the other. *)
Fixpoint serve (envs : list Env) (log : gmap string (gmap string field))
    : gmap string (gmap string field) :=
  match envs with
  | [] => log
  | env :: rest => serve rest (run_log env log)
  end.

(** The ways a validated request raises: before the scoring call is made,
    between it and the write, or in the write. *)
Inductive fails_after_validation (env : Env) (job_data : gmap string pyval)
    : exn -> Prop :=
  | FailBeforeCall e :
      client_fault env = Some e ->
      fails_after_validation env job_data e
  | FailBeforeWrite e :
      client_fault env = None ->
      fails_before_write env job_data e ->
      fails_after_validation env job_data e
  | FailWrite score_result id below e :
      reaches_gate env job_data score_result ->
      document env (field_of job_data "job_id") = Ok id ->
      py_lt_80 (weighted_score_of score_result) = Ok below ->
      set_fault env id (gate_entry below job_data score_result) = Some e ->
      fails_after_validation env job_data e.

(** The two shapes of an audit-log entry. *)
Definition rejected_fields : gset string :=
  {[ "status"; "score"; "reason"; "timestamp" ]}.

Definition ready_fields : gset string :=
  {[ "status"; "score"; "gemini_details"; "job_data"; "timestamp" ]}.

Definition entry_shape (d : gmap string field) : Prop :=
  (d !! "status" = Some (Value (PyStr "REJECTED"))
   /\ dom d = rejected_fields
   /\ d !! "gemini_details" = None /\ d !! "job_data" = None)
  \/ (d !! "status" = Some (Value (PyStr "READY_FOR_SUBMISSION"))
      /\ dom d = ready_fields
      /\ d !! "reason" = None).

(** For each [set] call of a trace: the document key, and the [status] and
    [reason] fields of the entry. *)
Definition decisions (evs : list event)
    : list (string * option field * option field) :=
  (fun '(id, d) => (id, d !! "status", d !! "reason")) <$> set_calls evs.

(** [float("79.999")] and [float("80.001")]: the binary64 numbers nearest
    to the decimals, which the correctly rounded quotients are as well. *)
Definition score_79_999 : float := (79999 / 1000)%float.
Definition score_80_001 : float := (80001 / 1000)%float.

(** ** Stub collaborators, for the scenarios *)

Definition stub_env_with (body : result pyval)
    (answer : result (option string)) (decoded : result pyval)
    (fault : option exn) (gemini_bound store_bound : bool)
    (id_fault : string -> option exn) : Env := {|
  MASTER_PROFILE := "{}";
  SCORE_SCHEMA := PyDict ∅;
  builtin_format := fun _ => "";
  request_get_json := body;
  generate_content := fun _ => answer;
  json_loads := fun _ => decoded;
  gemini_client_bound := gemini_bound;
  db_bound := store_bound;
  config_fault := None;
  document_id_error := fun v =>
    Exn "TypeError"
      ("sequence item 1: expected str instance, " ++ type_name v ++ " found");
  document_fault := id_fault;
  set_fault := fun _ _ => fault
|}.

(** Both clients bound, every string taken as a document id. *)
Definition stub_env (body : result pyval) (answer : result (option string))
    (decoded : result pyval) (fault : option exn) : Env :=
  stub_env_with body answer decoded fault true true (fun _ => None).

Definition request_j1 : gmap string pyval :=
  {[ "job_id" := PyStr "j1";
     "job_description" :=
       PyStr "Cloud-native role using Cloud Run and Firestore" ]}.

Definition request_j2 : gmap string pyval :=
  {[ "job_id" := PyStr "j2";
     "job_description" := PyStr "Unrelated retail job" ]}.

Definition request_no_description : gmap string pyval :=
  {[ "job_id" := PyStr "j3" ]}.

Definition result_92 : gmap string pyval :=
  {[ "weighted_score" := PyInt 92; "missing_keywords" := PyList [] ]}.

Definition result_35 : gmap string pyval :=
  {[ "weighted_score" := PyInt 35 ]}.

Definition result_no_score : gmap string pyval :=
  {[ "missing_keywords" := PyList [] ]}.

Definition result_text_score : gmap string pyval :=
  {[ "weighted_score" := PyStr "high" ]}.

Definition stub_text : result (option string) := Ok (Some "{}").

(** Scenario A: score 92. *)
Definition env_accept : Env :=
  stub_env (Ok (PyDict request_j1)) stub_text (Ok (PyDict result_92)) None.

(** Scenario B: score 35. *)
Definition env_reject : Env :=
  stub_env (Ok (PyDict request_j2)) stub_text (Ok (PyDict result_35)) None.

(** Scenario C: no [job_description]. *)
Definition env_missing : Env :=
  stub_env (Ok (PyDict request_no_description)) stub_text
           (Ok (PyDict result_92)) None.

(** Scenario D: the scoring call raises. *)
Definition transport_failure : exn := Exn "ConnectionError" "transport failure".

Definition env_model_down : Env :=
  stub_env (Ok (PyDict request_j1)) (Raise transport_failure)
           (Ok (PyDict result_92)) None.

(** The store refuses the write. *)
Definition store_unavailable : exn :=
  Exn "ServiceUnavailable" "503 failed to connect to all addresses".

Definition env_store_down : Env :=
  stub_env (Ok (PyDict request_j1)) stub_text (Ok (PyDict result_92))
           (Some store_unavailable).

(** The model answers without [weighted_score], or with a score that is
    not a number. *)
Definition env_no_score : Env :=
  stub_env (Ok (PyDict request_j1)) stub_text (Ok (PyDict result_no_score))
           None.

Definition env_text_score : Env :=
  stub_env (Ok (PyDict request_j1)) stub_text (Ok (PyDict result_text_score))
           None.

(** A request whose [job_id] is the number 7. *)
Definition request_numeric_id : gmap string pyval :=
  {[ "job_id" := PyInt 7;
     "job_description" := PyStr "Unrelated retail job" ]}.

Definition env_numeric_id : Env :=
  stub_env (Ok (PyDict request_numeric_id)) stub_text (Ok (PyDict result_92))
           None.

(** A request whose [job_id] has one ["/"]: [document] refuses it. *)
Definition request_slash_id : gmap string pyval :=
  {[ "job_id" := PyStr "a/b";
     "job_description" := PyStr "Unrelated retail job" ]}.

Definition odd_path : exn :=
  Exn "ValueError" "A document must have an even number of path elements".

Definition env_slash_id : Env :=
  stub_env_with (Ok (PyDict request_slash_id)) stub_text
    (Ok (PyDict result_92)) None true true
    (fun id => if String.eqb id "a/b" then Some odd_path else None).

(** Start-up left [db] unbound, or both clients unbound. *)
Definition env_no_db : Env :=
  stub_env_with (Ok (PyDict request_j1)) stub_text (Ok (PyDict result_92))
    None true false (fun _ => None).

Definition env_no_clients : Env :=
  stub_env_with (Ok (PyDict request_j1)) stub_text (Ok (PyDict result_92))
    None false false (fun _ => None).

(** The model answers without [weighted_score] and the store refuses the
    write. *)
Definition env_no_score_store_down : Env :=
  stub_env (Ok (PyDict request_j1)) stub_text (Ok (PyDict result_no_score))
           (Some store_unavailable).

Definition env_no_score_no_db : Env :=
  stub_env_with (Ok (PyDict request_j1)) stub_text
    (Ok (PyDict result_no_score)) None true false (fun _ => None).

(** A second request for job j1, scored 35. *)
Definition env_rescore : Env :=
  stub_env (Ok (PyDict request_j1)) stub_text (Ok (PyDict result_35)) None.

(** The body is not JSON, or is a JSON array. *)
Definition bad_request : exn :=
  Exn "BadRequest"
      "400 Bad Request: Failed to decode JSON object: Expecting value: line 1 column 1 (char 0)".

Definition env_malformed : Env :=
  stub_env (Raise bad_request) stub_text (Ok (PyDict result_92)) None.

Definition env_array_body : Env :=
  stub_env (Ok (PyList [])) stub_text (Ok (PyDict result_92)) None.

(** ** Further definitions: stored writes, falsy values, start-up *)

(** The write that the store takes in a run, if there is one. *)
Definition stored_write (env : Env) : option (string * gmap string field) :=
  head (stored_writes (run_events env ∅)).

Definition apply_write (w : option (string * gmap string field))
    (log : gmap string (gmap string field)) : gmap string (gmap string field) :=
  match w with
  | Some (id, d) => firestore_set id d log
  | None => log
  end.

(** The values that [not v] takes for empty: [None], [False], the numbers
    zero (both signs of the float), and the empty [str], [list] and
    [dict]. *)
Definition falsy (v : pyval) : Prop :=
  v = PyNone \/ v = PyBool false \/ v = PyInt 0
  \/ v = PyFloat PrimFloat.zero \/ v = PyFloat PrimFloat.neg_zero
  \/ v = PyStr "" \/ v = PyList [] \/ v = PyDict ∅.

(** The model answers with a [weighted_score] that is [nan]. *)
Definition result_nan : gmap string pyval :=
  {[ "weighted_score" := PyFloat PrimFloat.nan ]}.

Definition env_nan : Env :=
  stub_env (Ok (PyDict request_j1)) stub_text (Ok (PyDict result_nan)) None.

(** The model answers with a [weighted_score] that is [null]. *)
Definition result_null : gmap string pyval :=
  {[ "weighted_score" := PyNone ]}.

Definition env_null : Env :=
  stub_env (Ok (PyDict request_j1)) stub_text (Ok (PyDict result_null)) None.

(** A request whose [job_id] is the number 0. *)
Definition request_zero_id : gmap string pyval :=
  {[ "job_id" := PyInt 0;
     "job_description" := PyStr "Unrelated retail job" ]}.

Definition env_zero_id : Env :=
  stub_env (Ok (PyDict request_zero_id)) stub_text (Ok (PyDict result_92))
           None.

(** ** Start-up *)

(** What the module-level code of lines 9 to 26 gets from outside: the two
    client constructors, the files, and [json.load]'s decoder. *)
Record Startup := {
  (** [genai.Client()] *)
  genai_Client : result unit;
  (** [firestore.Client()] *)
  firestore_Client : result unit;
  (** [open(path, "r")] followed by the read of the whole file *)
  read_file : string -> result string;
  (** the decoding done by [json.load] *)
  load_json : string -> result pyval
}.

(** The module globals after start-up: whether [gemini_client] and [db]
    are bound, and the two loaded constants. *)
Record globals := Globals {
  gemini_client : bool;
  db : bool;
  loaded_schema : pyval;
  loaded_profile : string
}.

(** Lines 12 to 17: which clients are bound, and what is printed. *)
Definition init_clients (s : Startup) : bool * bool * list string :=
  match genai_Client s with
  | Raise e => (false, false, ["Failed to initialize clients: " ++ exn_str e])
  | Ok _ =>
      match firestore_Client s with
      | Raise e =>
          (true, false, ["Failed to initialize clients: " ++ exn_str e])
      | Ok _ => (true, true, [])
      end
  end.

(** Lines 12 to 26: the globals, or the exception that ends the import,
    and the lines printed on the way. *)
Definition module_init (s : Startup) : result globals * list string :=
  let '(gemini, store, out) := init_clients s in
  match read_file s "data/schema/score_schema.json" with
  | Raise e => (Raise e, out)
  | Ok text =>
      match load_json s text with
      | Raise e => (Raise e, out)
      | Ok schema =>
          match read_file s "data/master_profile.json" with
          | Raise e => (Raise e, out)
          | Ok profile => (Ok (Globals gemini store schema profile), out)
          end
      end
  end.

(** Start-up with no credentials: the first constructor raises. *)
Definition startup_no_credentials : Startup := {|
  genai_Client := Raise (Exn "ValueError" "Missing key inputs argument!");
  firestore_Client := Ok tt;
  read_file := fun path => Ok "{}";
  load_json := fun _ => Ok (PyDict ∅)
|}.

(** ** The comparison with 80 computes the order of the values *)

Lemma digits2_pos_bounds (m : positive) :
  2 ^ (Z.pos (digits2_pos m) - 1) <= Z.pos m < 2 ^ Z.pos (digits2_pos m).
Proof.
  induction m as [m IH | m IH |]; simpl digits2_pos.
  - rewrite Pos2Z.inj_succ.
    replace (Z.succ (Z.pos (digits2_pos m)) - 1) with (Z.succ (Z.pos (digits2_pos m) - 1)) by lia.
    rewrite !Z.pow_succ_r by lia. lia.
  - rewrite Pos2Z.inj_succ.
    replace (Z.succ (Z.pos (digits2_pos m)) - 1) with (Z.succ (Z.pos (digits2_pos m) - 1)) by lia.
    rewrite !Z.pow_succ_r by lia. lia.
  - simpl. lia.
Qed.

Lemma Prim2SF_threshold :
  Prim2SF THRESHOLD_FLOAT = S754_finite false 5629499534213120 (-46).
Proof. reflexivity. Qed.

Lemma dyadic_lt_threshold (m e : Z) :
  (dyadic m e < inject_Z THRESHOLD)%Q <->
  if 0 <=? e then m * 2 ^ e < 80 else m < 80 * 2 ^ (- e).
Proof.
  unfold dyadic, THRESHOLD. destruct (Z.leb_spec 0 e) as [He | He].
  - unfold Qlt, inject_Z. simpl Qnum. simpl Qden. lia.
  - assert (0 < 2 ^ (- e)) by (apply Z.pow_pos_nonneg; lia).
    unfold Qlt, inject_Z. simpl Qnum. simpl Qden.
    rewrite Z2Pos.id by lia. lia.
Qed.



Lemma compare_cont_Lt (m n : positive) :
  PosDef.Pos.compare_cont Eq m n = Lt <-> Z.pos m < Z.pos n.
Proof. reflexivity. Qed.

(** On two positive finite floats the order is that of the exponents, then
    of the mantissas. *)
Lemma SFltb_finite_pos (m n : positive) (e k : Z) :
  SFltb (S754_finite false m e) (S754_finite false n k) = true <->
  e < k \/ (e = k /\ Z.pos m < Z.pos n).
Proof.
  unfold SFltb, SFcompare.
  destruct (Z.compare_spec e k) as [-> | Hlt | Hgt].
  - rewrite <- compare_cont_Lt.
    destruct (PosDef.Pos.compare_cont Eq m n); split;
      intros; try congruence; try reflexivity.
    + destruct H as [? | [_ ?]]; [lia | congruence].
    + right. auto.
    + destruct H as [? | [_ ?]]; [lia | congruence].
  - split; [left; lia | reflexivity].
  - split; [congruence | lia].
Qed.

Lemma SFltb_threshold (x : spec_float) :
  SpecFloat.valid_binary prec emax x = true ->
  SFltb x (S754_finite false 5629499534213120 (-46)) = true <->
  match SF2number x with
  | Finite q => (q < inject_Z THRESHOLD)%Q
  | NegInf => True
  | _ => False
  end.
Proof.
  intros Hv. destruct x as [s | s | | [|] m e].
  - unfold SFltb, SFcompare, SF2number, Qlt, THRESHOLD; simpl. split; [lia | reflexivity].
  - unfold SFltb, SFcompare, SF2number. destruct s; split; (congruence || tauto || lia).
  - unfold SFltb, SFcompare, SF2number. split; [congruence | tauto].
  - unfold SFltb, SFcompare, SF2number. rewrite dyadic_lt_threshold.
    split; [intros _ | reflexivity].
    destruct (Z.leb_spec 0 e).
    + assert (0 < 2 ^ e) by (apply Z.pow_pos_nonneg; lia). nia.
    + assert (0 < 2 ^ (- e)) by (apply Z.pow_pos_nonneg; lia). lia.
  - rewrite SFltb_finite_pos. unfold SF2number. rewrite dyadic_lt_threshold.
    unfold SpecFloat.valid_binary, bounded, canonical_mantissa, fexp in Hv.
    apply andb_prop in Hv as [Hc Hb].
    apply Z.eqb_eq in Hc. apply Z.leb_le in Hb.
    pose proof (digits2_pos_bounds m) as Hd.
    set (d := Z.pos (digits2_pos m)) in *.
    change (SpecFloat.emin prec emax) with (-1074) in Hc.
    change prec with 53 in Hc.
    destruct (Z.leb_spec 0 e) as [He | He].
    + (* e >= 0: the float is normal and at least 2^52 *)
      assert (d = 53) by lia.
      assert (2 ^ 52 <= Z.pos m).
      { replace 52 with (d - 1) by lia. apply Hd. }
      assert (1 <= 2 ^ e) by (apply (Z.pow_le_mono_r 2 0 e); lia).
      assert (80 < 2 ^ 52) by reflexivity.
      split; [lia | nia].
    + destruct (Z.lt_trichotomy e (-46)) as [Hlt | [-> | Hgt]].
      * assert (d <= 53) by lia.
        assert (Z.pos m < 2 ^ 53).
        { eapply Z.lt_le_trans; [apply Hd |]. apply Z.pow_le_mono_r; lia. }
        assert (2 ^ 47 <= 2 ^ (- e)) by (apply Z.pow_le_mono_r; lia).
        assert (2 ^ 53 < 80 * 2 ^ 47) by reflexivity.
        split; [lia | intros _; left; lia].
      * assert (80 * 2 ^ (- -46) = 5629499534213120) as -> by reflexivity.
        lia.
      * assert (d = 53) by lia.
        assert (2 ^ 52 <= Z.pos m).
        { replace 52 with (d - 1) by lia. apply Hd. }
        assert (2 ^ (- e) <= 2 ^ 45) by (apply Z.pow_le_mono_r; lia).
        assert (80 * 2 ^ 45 < 2 ^ 52) by reflexivity.
        split; [lia | lia].
Qed.

Lemma float_ltb_threshold (f : float) :
  PrimFloat.ltb f THRESHOLD_FLOAT = true <->
  match float_number f with
  | Finite q => (q < inject_Z THRESHOLD)%Q
  | NegInf => True
  | _ => False
  end.
Proof.
  rewrite ltb_spec, Prim2SF_threshold. unfold float_number.
  apply SFltb_threshold, Prim2SF_valid.
Qed.

Lemma float_ltb_threshold_false (f : float) :
  PrimFloat.ltb f THRESHOLD_FLOAT = false <->
  match float_number f with
  | Finite q => (inject_Z THRESHOLD <= q)%Q
  | NegInf => False
  | _ => True
  end.
Proof.
  pose proof (float_ltb_threshold f) as H.
  destruct (PrimFloat.ltb f THRESHOLD_FLOAT), (float_number f) as [q | | |];
    split; intros H'; try tauto; try congruence.
  - apply Qle_not_lt in H'. tauto.
  - apply Qnot_lt_le. intros Hq. apply H in Hq. congruence.
  - destruct H as [_ H]. specialize (H I). congruence.
Qed.

(** [v < 80] is true exactly on the numbers below 80. *)
Lemma py_lt_80_true (v : pyval) :
  py_lt_80 v = Ok true <-> below_threshold v.
Proof.
  unfold below_threshold.
  destruct v as [| b | z | f | s | l | d]; simpl;
    try (split; [congruence | tauto]).
  - unfold Qlt; simpl. split.
    + intros [= H]. apply Z.ltb_lt in H. lia.
    + intros H. f_equal. apply Z.ltb_lt. lia.
  - unfold Qlt; simpl. split.
    + intros [= H]. apply Z.ltb_lt in H. lia.
    + intros H. f_equal. apply Z.ltb_lt. lia.
  - rewrite <- float_ltb_threshold.
    split; [intros [= H]; exact H | intros H; f_equal; exact H].
Qed.

(** [v < 80] is false on the numbers that are at least 80, and on [nan]. *)
Lemma py_lt_80_false (v : pyval) :
  py_lt_80 v = Ok false <->
  at_least_threshold v \/ py_number v = Some NaN.
Proof.
  unfold at_least_threshold.
  destruct v as [| b | z | f | s | l | d]; simpl;
    try (split; [congruence | intros [[] | ?]; congruence]).
  - unfold Qle; simpl. split.
    + intros [= H]. left. apply Z.ltb_ge in H. lia.
    + intros [H | ?]; [| congruence]. f_equal. apply Z.ltb_ge. lia.
  - unfold Qle; simpl. split.
    + intros [= H]. left. apply Z.ltb_ge in H. lia.
    + intros [H | ?]; [| congruence]. f_equal. apply Z.ltb_ge. lia.
  - split.
    + intros [= H]. apply float_ltb_threshold_false in H.
      destruct (float_number f); tauto.
    + intros H. f_equal. apply float_ltb_threshold_false.
      destruct (float_number f); destruct H as [H | H]; try tauto; congruence.
Qed.

(** The comparison raises exactly on the values that are not numbers. *)
Lemma py_lt_80_raises (v : pyval) :
  (exists e, py_lt_80 v = Raise e) <-> py_number v = None.
Proof.
  destruct v; simpl; split; intros H; try congruence; eauto;
    destruct H; congruence.
Qed.

Ltac unfold_handler :=
  cbv beta iota delta
    [analyze_job_posting handler_body generate_content_call mbind M_bind bind
     lift try_except emit respond ret raise document_set update_log py_get
     loads_text application_log trace].

Lemma empty_value_falsy (v : pyval) : empty_value v -> py_not v = true.
Proof. intros [-> | [-> | [-> | ->]]]; reflexivity. Qed.

Lemma missing_or_empty_falsy (job_data : gmap string pyval) (k : string) :
  missing_or_empty job_data k -> py_not (field_of job_data k) = true.
Proof.
  unfold field_of. intros [-> | (v & -> & Hv)]; [reflexivity |].
  apply empty_value_falsy, Hv.
Qed.

(** ** Request validation *)

(** C3: a body in which [job_id] or [job_description] is missing or empty
    is answered 400 with the fixed error body; nothing is written to the
    audit log and the scoring model is not called (the trace is empty). *)
Theorem missing_field_is_client_error
    (env : Env) (log : gmap string (gmap string field))
    (job_data : gmap string pyval) :
  request_get_json env = Ok (PyDict job_data) ->
  missing_or_empty job_data "job_id" \/
    missing_or_empty job_data "job_description" ->
  analyze_job_posting env (State log [])
    = (Ok (missing_fields_body, 400), State log [])
  /\ missing_fields_body !! "status" = Some (PyStr "error")
  /\ missing_fields_body !! "message"
       = Some (PyStr "Missing job_id or job_description")
  /\ dom missing_fields_body = {[ "status"; "message" ]}.
Proof.
  intros Hbody Hmiss. split; [| repeat split; try reflexivity].
  - unfold_handler. rewrite Hbody. cbv beta iota.
    fold (field_of job_data "job_id") (field_of job_data "job_description").
    assert (py_not (field_of job_data "job_id")
            || py_not (field_of job_data "job_description") = true) as ->.
    { destruct Hmiss as [H | H]; apply missing_or_empty_falsy in H;
        rewrite H; [reflexivity | apply orb_true_r]. }
    reflexivity.
Qed.

(** ** The runs of the handler *)

Lemma validated_dec (job_data : gmap string pyval) :
  (py_not (field_of job_data "job_id")
   || py_not (field_of job_data "job_description") = false
   /\ validated job_data)
  \/ (py_not (field_of job_data "job_id")
      || py_not (field_of job_data "job_description") = true
      /\ ~ validated job_data).
Proof.
  unfold validated, py_not.
  destruct (py_truthy (field_of job_data "job_id")),
           (py_truthy (field_of job_data "job_description")); simpl;
    [left | right | right | right]; split; try reflexivity; try tauto;
      intros [? ?]; congruence.
Qed.

Lemma validated_test (job_data : gmap string pyval) :
  validated job_data ->
  py_not (field_of job_data "job_id")
  || py_not (field_of job_data "job_description") = false.
Proof. destruct (validated_dec job_data) as [[H _] | [_ H]]; tauto. Qed.

Ltac unfold_body :=
  cbv beta iota delta
    [handler_body generate_content_call mbind M_bind bind lift emit respond
     ret raise document_set update_log py_get loads_text application_log
     trace].

(** [document] returns the key only of a string [job_id], and the key is
    that string. *)
Lemma document_ok (env : Env) (job_id : pyval) (id : string) :
  document env job_id = Ok id ->
  job_id = PyStr id /\ db_bound env = true /\ document_fault env id = None.
Proof.
  unfold document. destruct (db_bound env); [| discriminate].
  destruct job_id as [| | | | s | |]; try discriminate.
  destruct (document_fault env s) eqn:Hfault; [discriminate |].
  intros [= <-]. auto.
Qed.

(** Every run of the [try] block is one of the six. *)
Lemma body_spec_holds (env : Env) (log : gmap string (gmap string field)) :
  body_spec env log (handler_body env (State log [])).
Proof.
  unfold_body.
  destruct (request_get_json env) as [job_data | e] eqn:Hbody.
  2:{ pose proof (BodyBad env log) as H. rewrite Hbody in H.
      apply H. exact I. }
  destruct job_data as [| b | z | f | s | l | job_data];
    try (pose proof (BodyBad env log) as H; rewrite Hbody in H;
         apply H; exact I).
  fold (field_of job_data "job_id") (field_of job_data "job_description").
  destruct (validated_dec job_data) as [[-> Hval] | [-> Hval]].
  2:{ eapply BodyInvalid; eauto. }
  destruct (client_fault env) as [e |] eqn:Hclient.
  { eapply BodyFailedBeforeCall; eauto. }
  cbv beta iota.
  set (req := scoring_request env (field_of job_data "job_description")).
  destruct (generate_content env req) as [text | e] eqn:Hgen.
  2:{ eapply BodyFailedBeforeWrite; eauto. eapply FailModelCall; eauto. }
  fold (loads_text env text).
  destruct (loads_text env text) as [score_result | e] eqn:Hloads.
  2:{ eapply BodyFailedBeforeWrite; eauto. eapply FailParse; eauto. }
  fold (py_get score_result "weighted_score" (PyInt 0)).
  destruct (py_get score_result "weighted_score" (PyInt 0))
    as [weighted_score | e] eqn:Hget.
  2:{ eapply BodyFailedBeforeWrite; eauto. eapply FailNotObject; eauto. }
  destruct score_result as [| | | | | | score_result]; try discriminate Hget.
  injection Hget as <-. fold (weighted_score_of score_result).
  assert (reaches_gate env job_data score_result) as Hgate.
  { split; eauto. }
  destruct (py_lt_80 (weighted_score_of score_result)) as [below | e] eqn:Hlt.
  2:{ eapply BodyFailedBeforeWrite; eauto. eapply FailCompare; eauto. }
  destruct (document env (field_of job_data "job_id")) as [id | e] eqn:Hid.
  2:{ destruct below;
        (eapply BodyFailedBeforeWrite; eauto; eapply FailDocument; eauto). }
  destruct (set_fault env id (gate_entry below job_data score_result))
    as [e |] eqn:Hfault.
  - pose proof (BodyWriteFailed env log _ _ _ _ _ Hgate Hid Hlt Hfault) as H.
    destruct below; unfold gate_entry in Hfault; rewrite Hfault; exact H.
  - pose proof (BodyStored env log _ _ _ _ Hgate Hid Hlt Hfault) as H.
    destruct below; unfold gate_entry in Hfault; rewrite Hfault; exact H.
Qed.

(** A run is its [try] block followed by the [except] clause. *)
Lemma run_except (env : Env) (log : gmap string (gmap string field)) :
  run env log = except_clause (handler_body env (State log [])).
Proof.
  unfold run, analyze_job_posting, try_except, except_clause.
  destruct (handler_body env (State log [])) as [[r | e] st]; reflexivity.
Qed.

(** The [try] block of a request that arrives at the gate, up to the
    comparison. *)
Lemma body_at_gate env log job_data score_result :
  reaches_gate env job_data score_result ->
  handler_body env (State log [])
  = (below ← lift (py_lt_80 (weighted_score_of score_result));
     if (below : bool) then
       document_set env (field_of job_data "job_id")
         (rejected_entry (weighted_score_of score_result)) ;;
       respond (rejected_body (weighted_score_of score_result)) 200
     else
       document_set env (field_of job_data "job_id")
         (ready_entry (weighted_score_of score_result) (PyDict score_result)
            (PyDict job_data)) ;;
       respond (success_body (weighted_score_of score_result)
                  (PyDict score_result)) 200)
      (State log
         [Generate (scoring_request env
                      (field_of job_data "job_description"))]).
Proof.
  intros [Hbody Hval Hclient (text & Hgen & Hloads)].
  pose proof (validated_test _ Hval) as Htest.
  unfold weighted_score_of, field_of in *.
  unfold handler_body, generate_content_call.
  cbv beta iota delta [mbind M_bind bind lift emit py_get application_log
                       trace].
  rewrite Hbody. cbv beta iota. rewrite Htest, Hclient. cbv beta iota.
  rewrite Hgen. cbv beta iota. rewrite Hloads. reflexivity.
Qed.

(** The run of a request that arrives at the gate, when the comparison
    returns [below] and [document] returns the key [id]: the store takes
    the write, or refuses it. *)
Lemma run_stored env log job_data score_result id below :
  reaches_gate env job_data score_result ->
  document env (field_of job_data "job_id") = Ok id ->
  py_lt_80 (weighted_score_of score_result) = Ok below ->
  set_fault env id (gate_entry below job_data score_result) = None ->
  run env log
  = (Ok (gate_body below score_result, 200),
     State (firestore_set id (gate_entry below job_data score_result) log)
       [Generate (scoring_request env (field_of job_data "job_description"));
        DocumentSet id (gate_entry below job_data score_result) true]).
Proof.
  intros Hgate Hid Hlt Hfault.
  rewrite run_except, (body_at_gate _ _ _ _ Hgate).
  cbv beta iota delta [mbind M_bind bind lift]. rewrite Hlt.
  destruct below; unfold gate_entry in Hfault;
    cbv beta iota delta [document_set mbind M_bind bind lift];
    rewrite Hid; cbv beta iota; rewrite Hfault; reflexivity.
Qed.

Lemma run_write_failed env log job_data score_result id below e :
  reaches_gate env job_data score_result ->
  document env (field_of job_data "job_id") = Ok id ->
  py_lt_80 (weighted_score_of score_result) = Ok below ->
  set_fault env id (gate_entry below job_data score_result) = Some e ->
  run env log
  = (error_response e,
     State log
       [Generate (scoring_request env (field_of job_data "job_description"));
        DocumentSet id (gate_entry below job_data score_result) false;
        error_line e]).
Proof.
  intros Hgate Hid Hlt Hfault.
  rewrite run_except, (body_at_gate _ _ _ _ Hgate).
  cbv beta iota delta [mbind M_bind bind lift]. rewrite Hlt.
  destruct below; unfold gate_entry in Hfault;
    cbv beta iota delta [document_set mbind M_bind bind lift];
    rewrite Hid; cbv beta iota; rewrite Hfault; reflexivity.
Qed.

Lemma run_failed_before_call env log job_data e :
  request_get_json env = Ok (PyDict job_data) ->
  validated job_data ->
  client_fault env = Some e ->
  run env log = (error_response e, State log [error_line e]).
Proof.
  intros Hbody Hval Hclient.
  pose proof (validated_test _ Hval) as Htest.
  unfold run, field_of in *. unfold_handler.
  rewrite Hbody. cbv beta iota. rewrite Htest, Hclient. reflexivity.
Qed.

Lemma run_failed_before_write env log job_data e :
  request_get_json env = Ok (PyDict job_data) ->
  validated job_data ->
  client_fault env = None ->
  fails_before_write env job_data e ->
  run env log
  = (error_response e,
     State log
       [Generate (scoring_request env (field_of job_data "job_description"));
        error_line e]).
Proof.
  intros Hbody Hval Hclient Hfail.
  pose proof (validated_test _ Hval) as Htest.
  destruct Hfail as [e Hgen | text e Hgen Hloads | text v e Hgen Hloads Hget
                     | sr e Hsr Hlt | sr below e Hsr Hlt Hid].
  - unfold run, field_of in *. unfold_handler.
    rewrite Hbody. cbv beta iota. rewrite Htest, Hclient. cbv beta iota.
    rewrite Hgen. reflexivity.
  - unfold run, field_of in *. unfold_handler.
    rewrite Hbody. cbv beta iota. rewrite Htest, Hclient. cbv beta iota.
    rewrite Hgen. unfold loads_text in Hloads. rewrite Hloads. reflexivity.
  - unfold run, field_of in *. unfold_handler.
    rewrite Hbody. cbv beta iota. rewrite Htest, Hclient. cbv beta iota.
    rewrite Hgen. unfold loads_text in Hloads. rewrite Hloads.
    cbv beta iota.
    unfold py_get in Hget. destruct v; try discriminate Hget;
      injection Hget as <-; reflexivity.
  - rewrite run_except, (body_at_gate _ _ _ _ Hsr).
    cbv beta iota delta [mbind M_bind bind lift]. rewrite Hlt. reflexivity.
  - rewrite run_except, (body_at_gate _ _ _ _ Hsr).
    cbv beta iota delta [mbind M_bind bind lift]. rewrite Hlt.
    destruct below;
      cbv beta iota delta [document_set mbind M_bind bind lift];
      rewrite Hid; reflexivity.
Qed.

Lemma run_bad_body env log :
  not_a_json_object (request_get_json env) ->
  run env log
  = (error_response (body_exn (request_get_json env)),
     State log [error_line (body_exn (request_get_json env))]).
Proof.
  intros Hbad. unfold run. unfold_handler.
  destruct (request_get_json env) as [[] | e]; try reflexivity.
  destruct Hbad.
Qed.

Lemma run_invalid env log job_data :
  request_get_json env = Ok (PyDict job_data) ->
  ~ validated job_data ->
  run env log = (Ok (missing_fields_body, 400), State log []).
Proof.
  intros Hbody Hval. unfold run. unfold_handler.
  rewrite Hbody. cbv beta iota.
  fold (field_of job_data "job_id") (field_of job_data "job_description").
  destruct (validated_dec job_data) as [[_ H] | [-> _]]; [tauto | reflexivity].
Qed.

(** ** A body that is not a JSON object *)

(** C10: when the body does not decode to a JSON object (Flask raises on
    it, or it decodes to something that is not a dict), the answer is 500
    with the error body carrying the exception text, not the 400 of the
    validation; the log is unchanged, and neither the model nor the store
    is called. *)
Theorem unparsable_body_is_server_error
    (env : Env) (log : gmap string (gmap string field)) :
  not_a_json_object (request_get_json env) ->
  let message := exn_str (body_exn (request_get_json env)) in
  run env log
    = (Ok (error_body message, 500),
       State log [Print ("An error occurred: " ++ message)])
  /\ error_body message !! "status" = Some (PyStr "error")
  /\ error_body message !! "message" = Some (PyStr message)
  /\ dom (error_body message) = {[ "status"; "message" ]}
  /\ fst (run env log) <> Ok (missing_fields_body, 400)
  /\ run_log env log = log
  /\ set_calls (run_events env log) = []
  /\ model_calls (run_events env log) = [].
Proof.
  intros Hbad message. unfold run_log, run_events.
  rewrite (run_bad_body env log Hbad).
  repeat split; try reflexivity. discriminate.
Qed.

Lemma unparsable_body_witness :
  fst (run env_malformed ∅)
    = Ok (error_body (exn_str bad_request), 500)
  /\ fst (run env_array_body ∅)
    = Ok (error_body "'list' object has no attribute 'get'", 500).
Proof.
  split.
  - destruct (unparsable_body_is_server_error env_malformed ∅ I) as [H _].
    rewrite H. reflexivity.
  - destruct (unparsable_body_is_server_error env_array_body ∅ I) as [H _].
    rewrite H. reflexivity.
Defined.

Lemma missing_field_witness :
  run env_missing ∅ = (Ok (missing_fields_body, 400), State ∅ []).
Proof.
  apply (missing_field_is_client_error env_missing ∅ request_no_description).
  - reflexivity.
  - right. left. reflexivity.
Defined.

(** ** The gate *)

(** The run of a request that arrives at the gate, when the comparison
    returns [below]: [document] raises, or the store refuses the write, or
    it takes it. *)
Lemma gate_run env log job_data score_result below :
  reaches_gate env job_data score_result ->
  py_lt_80 (weighted_score_of score_result) = Ok below ->
  (exists e,
     document env (field_of job_data "job_id") = Raise e
     /\ run env log
        = (error_response e,
           State log
             [Generate (scoring_request env
                          (field_of job_data "job_description"));
              error_line e]))
  \/ (exists id e,
        document env (field_of job_data "job_id") = Ok id
        /\ set_fault env id (gate_entry below job_data score_result) = Some e
        /\ run env log
           = (error_response e,
              State log
                [Generate (scoring_request env
                             (field_of job_data "job_description"));
                 DocumentSet id (gate_entry below job_data score_result)
                   false;
                 error_line e]))
  \/ (exists id,
        document env (field_of job_data "job_id") = Ok id
        /\ set_fault env id (gate_entry below job_data score_result) = None
        /\ run env log
           = (Ok (gate_body below score_result, 200),
              State (firestore_set id
                       (gate_entry below job_data score_result) log)
                [Generate (scoring_request env
                             (field_of job_data "job_description"));
                 DocumentSet id (gate_entry below job_data score_result)
                   true])).
Proof.
  intros Hgate Hlt.
  destruct (document env (field_of job_data "job_id")) as [id | e] eqn:Hid.
  - destruct (set_fault env id (gate_entry below job_data score_result))
      as [e |] eqn:Hfault.
    + right. left. exists id, e. split; [reflexivity |]. split; [exact Hfault |].
      apply run_write_failed; assumption.
    + right. right. exists id. split; [reflexivity |]. split; [exact Hfault |].
      apply run_stored; assumption.
  - left. exists e. split; [reflexivity |].
    apply run_failed_before_write;
      [exact (gate_request _ _ _ Hgate) | exact (gate_validated _ _ _ Hgate)
       | exact (gate_client _ _ _ Hgate) |].
    eapply FailDocument; eassumption.
Qed.

(** A request that arrives at the gate with a score the comparison accepts
    makes one [set] call when [document] returns the key, with the entry
    of the branch taken, and none when [document] raises. *)
Lemma gate_set_calls env log job_data score_result id below :
  reaches_gate env job_data score_result ->
  document env (field_of job_data "job_id") = Ok id ->
  py_lt_80 (weighted_score_of score_result) = Ok below ->
  set_calls (run_events env log)
  = [(id, gate_entry below job_data score_result)].
Proof.
  intros Hgate Hid Hlt. unfold run_events.
  destruct (gate_run env log _ _ _ Hgate Hlt)
    as [(e & Hid' & Hrun) | [(id' & e & Hid' & _ & Hrun)
                            | (id' & Hid' & _ & Hrun)]];
    rewrite Hid in Hid'; try discriminate Hid';
    injection Hid' as <-; rewrite Hrun; reflexivity.
Qed.

Lemma gate_no_document env log job_data score_result below e :
  reaches_gate env job_data score_result ->
  py_lt_80 (weighted_score_of score_result) = Ok below ->
  document env (field_of job_data "job_id") = Raise e ->
  set_calls (run_events env log) = []
  /\ fst (run env log) = Ok (error_body (exn_str e), 500).
Proof.
  intros Hgate Hlt Hid. unfold run_events.
  destruct (gate_run env log _ _ _ Hgate Hlt)
    as [(e' & Hid' & Hrun) | [(id' & e' & Hid' & _ & Hrun)
                             | (id' & Hid' & _ & Hrun)]];
    rewrite Hid in Hid'; try discriminate Hid'.
  injection Hid' as <-. rewrite Hrun. split; reflexivity.
Qed.

Lemma gate_answer env log job_data score_result below body :
  reaches_gate env job_data score_result ->
  py_lt_80 (weighted_score_of score_result) = Ok below ->
  fst (run env log) = Ok (body, 200) ->
  body = gate_body below score_result.
Proof.
  intros Hgate Hlt.
  destruct (gate_run env log _ _ _ Hgate Hlt)
    as [(e' & _ & Hrun) | [(id' & e' & _ & _ & Hrun)
                          | (id' & _ & _ & Hrun)]];
    rewrite Hrun; cbn; intros H; try discriminate H.
  injection H as <-. reflexivity.
Qed.

(** A comparison that computes to false on a number that is not [nan]. *)
Lemma at_least_of_ok_false (v : pyval) :
  py_lt_80 v = Ok false -> py_number v <> Some NaN -> at_least_threshold v.
Proof. intros H Hn. apply py_lt_80_false in H as [H | H]; tauto. Qed.

Lemma below_threshold_79_999 : below_threshold (PyFloat score_79_999).
Proof. apply py_lt_80_true. reflexivity. Qed.

Lemma at_least_threshold_80 :
  at_least_threshold (PyInt 80) /\ at_least_threshold (PyFloat 80).
Proof.
  split.
  - unfold at_least_threshold, py_number, THRESHOLD. apply Qle_refl.
  - assert (py_lt_80 (PyFloat 80) = Ok false) as H by reflexivity.
    apply py_lt_80_false in H as [H | H]; [exact H |].
    vm_compute in H. discriminate H.
Qed.

Lemma at_least_threshold_80_001 : at_least_threshold (PyFloat score_80_001).
Proof.
  assert (py_lt_80 (PyFloat score_80_001) = Ok false) as H by reflexivity.
  apply py_lt_80_false in H as [H | H]; [exact H |].
  vm_compute in H. discriminate H.
Qed.

(** C1: at the gate, a weighted score below 80 is decided REJECTED with the
    reason "Score below 80% threshold", and a weighted score of at least 80
    is decided READY_FOR_SUBMISSION; 80 itself passes, as does 80.001,
    while 79.999 is rejected.  The decision is the test of line 73; it
    shows in the [set] call, the only one of the run, made whenever
    [document(job_id)] returns, and in the status of a 200 answer. *)
Theorem threshold_gate
    (env : Env) (log : gmap string (gmap string field))
    (job_data score_result : gmap string pyval) :
  reaches_gate env job_data score_result ->
  let weighted_score := weighted_score_of score_result in
  let decided (below : bool) (status : string) (reason : option field)
              (answer : string) :=
    py_lt_80 weighted_score = Ok below
    /\ (forall id,
          document env (field_of job_data "job_id") = Ok id ->
          decisions (run_events env log)
          = [(id, Some (Value (PyStr status)), reason)])
    /\ (forall e,
          document env (field_of job_data "job_id") = Raise e ->
          decisions (run_events env log) = []
          /\ fst (run env log) = Ok (error_body (exn_str e), 500))
    /\ (forall body,
          fst (run env log) = Ok (body, 200) ->
          body !! "status" = Some (PyStr answer)) in
  let rejected :=
    decided true "REJECTED"
            (Some (Value (PyStr "Score below 80% threshold"))) "rejected" in
  let ready := decided false "READY_FOR_SUBMISSION" None "success" in
  (below_threshold weighted_score -> rejected)
  /\ (at_least_threshold weighted_score -> ready)
  /\ (weighted_score = PyInt 80 \/ weighted_score = PyFloat 80
      \/ weighted_score = PyFloat score_80_001 -> ready)
  /\ (weighted_score = PyFloat score_79_999 -> rejected).
Proof.
  intros Hgate weighted_score decided rejected ready.
  assert (forall below status reason answer,
            py_lt_80 weighted_score = Ok below ->
            gate_entry below job_data score_result !! "status"
              = Some (Value (PyStr status)) ->
            gate_entry below job_data score_result !! "reason" = reason ->
            gate_body below score_result !! "status" = Some (PyStr answer) ->
            decided below status reason answer) as Hdecided.
  { intros below status reason answer Hlt Hstatus Hreason Hanswer.
    split; [exact Hlt |]. split; [| split].
    - intros id Hid. unfold decisions.
      rewrite (gate_set_calls _ log _ _ _ _ Hgate Hid Hlt). cbn.
      rewrite Hstatus, Hreason. reflexivity.
    - intros e Hid. unfold decisions.
      destruct (gate_no_document _ log _ _ _ _ Hgate Hlt Hid) as [-> Hresp].
      split; [reflexivity | exact Hresp].
    - intros body Hresp.
      rewrite (gate_answer _ log _ _ _ _ Hgate Hlt Hresp). exact Hanswer. }
  assert (below_threshold weighted_score -> rejected) as Hbelow.
  { intros H. apply py_lt_80_true in H.
    apply Hdecided; [exact H | reflexivity ..]. }
  assert (at_least_threshold weighted_score -> ready) as Hleast.
  { intros H. assert (py_lt_80 weighted_score = Ok false) as H'
      by (apply py_lt_80_false; left; exact H).
    apply Hdecided; [exact H' | reflexivity ..]. }
  split; [exact Hbelow |]. split; [exact Hleast |]. split.
  - intros [H | [H | H]]; apply Hleast; rewrite H.
    + apply at_least_threshold_80.
    + apply at_least_threshold_80.
    + apply at_least_threshold_80_001.
  - intros H. apply Hbelow. rewrite H. apply below_threshold_79_999.
Qed.

(** The two boundary scores are the decimals 79.999 and 80.001 rounded to
    binary64: each is [m * 2^-46] with [m] within half a unit of
    [decimal * 2^46]. *)
Lemma score_79_999_nearest :
  score_79_999 = 0x1.3ffef9db22d0ep+6%float
  /\ Prim2SF score_79_999 = S754_finite false 5629429165468942 (-46)
  /\ 2 * Z.abs (79999 * 2 ^ 46 - 1000 * 5629429165468942) <= 1000.
Proof. repeat split; try reflexivity. vm_compute. discriminate. Qed.

Lemma score_80_001_nearest :
  Prim2SF score_80_001 = S754_finite false 5629569902957298 (-46)
  /\ 2 * Z.abs (80001 * 2 ^ 46 - 1000 * 5629569902957298) <= 1000.
Proof. repeat split; try reflexivity. vm_compute. discriminate. Qed.

Lemma env_reject_reaches_gate : reaches_gate env_reject request_j2 result_35.
Proof.
  split; [reflexivity | split; reflexivity | reflexivity |].
  exists (Some "{}"). split; reflexivity.
Qed.

Lemma env_accept_reaches_gate : reaches_gate env_accept request_j1 result_92.
Proof.
  split; [reflexivity | split; reflexivity | reflexivity |].
  exists (Some "{}"). split; reflexivity.
Qed.

Lemma env_no_db_reaches_gate : reaches_gate env_no_db request_j1 result_92.
Proof.
  split; [reflexivity | split; reflexivity | reflexivity |].
  exists (Some "{}"). split; reflexivity.
Qed.

Lemma threshold_gate_witness :
  decisions (run_events env_reject ∅)
    = [("j2", Some (Value (PyStr "REJECTED")),
              Some (Value (PyStr "Score below 80% threshold")))]
  /\ decisions (run_events env_accept ∅)
    = [("j1", Some (Value (PyStr "READY_FOR_SUBMISSION")), None)]
  /\ (decisions (run_events env_no_db ∅) = []
      /\ fst (run env_no_db ∅)
         = Ok (error_body "name 'db' is not defined", 500)).
Proof.
  split; [| split].
  - destruct (threshold_gate env_reject ∅ request_j2 result_35
                env_reject_reaches_gate) as (H & _).
    destruct H as (_ & Hdec & _); [apply py_lt_80_true; reflexivity |].
    apply Hdec. reflexivity.
  - destruct (threshold_gate env_accept ∅ request_j1 result_92
                env_accept_reaches_gate) as (_ & H & _).
    destruct H as (_ & Hdec & _);
      [apply at_least_of_ok_false; [reflexivity | discriminate] |].
    apply Hdec. reflexivity.
  - destruct (threshold_gate env_no_db ∅ request_j1 result_92
                env_no_db_reaches_gate) as (_ & H & _).
    destruct H as (_ & _ & Hdoc & _);
      [apply at_least_of_ok_false; [reflexivity | discriminate] |].
    apply (Hdoc (Exn "NameError" "name 'db' is not defined")). reflexivity.
Defined.

Lemma env_no_score_reaches_gate :
  reaches_gate env_no_score request_j1 result_no_score.
Proof.
  split; [reflexivity | split; reflexivity | reflexivity |].
  exists (Some "{}"). split; reflexivity.
Qed.

Lemma env_no_score_store_down_reaches_gate :
  reaches_gate env_no_score_store_down request_j1 result_no_score.
Proof.
  split; [reflexivity | split; reflexivity | reflexivity |].
  exists (Some "{}"). split; reflexivity.
Qed.

Lemma env_no_score_no_db_reaches_gate :
  reaches_gate env_no_score_no_db request_j1 result_no_score.
Proof.
  split; [reflexivity | split; reflexivity | reflexivity |].
  exists (Some "{}"). split; reflexivity.
Qed.

(** C4 fails as stated.  Two requests whose decoded model response has no
    [weighted_score] and that are answered 500, not the 200 rejected
    response: the store refuses the write of the first; start-up left [db]
    unbound for the second. *)
Lemma absent_score_answered_error :
  (reaches_gate env_no_score_store_down request_j1 result_no_score
   /\ result_no_score !! "weighted_score" = None
   /\ fst (run env_no_score_store_down ∅)
      = Ok (error_body (exn_str store_unavailable), 500)
   /\ fst (run env_no_score_store_down ∅)
      <> Ok (rejected_body (PyInt 0), 200))
  /\ (reaches_gate env_no_score_no_db request_j1 result_no_score
      /\ result_no_score !! "weighted_score" = None
      /\ fst (run env_no_score_no_db ∅)
         = Ok (error_body "name 'db' is not defined", 500)
      /\ fst (run env_no_score_no_db ∅)
         <> Ok (rejected_body (PyInt 0), 200)).
Proof.
  split.
  - split; [exact env_no_score_store_down_reaches_gate |].
    repeat split; try reflexivity. discriminate.
  - split; [exact env_no_score_no_db_reaches_gate |].
    repeat split; try reflexivity. discriminate.
Qed.

(** C4, as the code has it: when the decoded model response is an object
    with no [weighted_score], the score is taken to be 0 and the REJECTED
    branch is taken, no error being raised for the missing field.  When
    [document(job_id)] returns, the one [set] call carries the REJECTED
    entry with score 0; the store taking it, the answer is the 200
    rejected response with score 0; the store refusing it, or [document]
    raising, the answer is the 500 of the error path. *)
Theorem absent_score_is_rejected
    (env : Env) (log : gmap string (gmap string field))
    (job_data score_result : gmap string pyval) :
  reaches_gate env job_data score_result ->
  score_result !! "weighted_score" = None ->
  weighted_score_of score_result = PyInt 0
  /\ py_lt_80 (weighted_score_of score_result) = Ok true
  /\ rejected_entry (PyInt 0) !! "score" = Some (Value (PyInt 0))
  /\ (forall id,
        document env (field_of job_data "job_id") = Ok id ->
        set_calls (run_events env log) = [(id, rejected_entry (PyInt 0))]
        /\ decisions (run_events env log)
           = [(id, Some (Value (PyStr "REJECTED")),
                   Some (Value (PyStr "Score below 80% threshold")))]
        /\ (set_fault env id (rejected_entry (PyInt 0)) = None ->
            fst (run env log) = Ok (rejected_body (PyInt 0), 200)
            /\ rejected_body (PyInt 0) !! "status" = Some (PyStr "rejected")
            /\ rejected_body (PyInt 0) !! "score" = Some (PyInt 0)
            /\ run_log env log !! id = Some (rejected_entry (PyInt 0)))
        /\ (forall e,
              set_fault env id (rejected_entry (PyInt 0)) = Some e ->
              fst (run env log) = Ok (error_body (exn_str e), 500)))
  /\ (forall e,
        document env (field_of job_data "job_id") = Raise e ->
        set_calls (run_events env log) = []
        /\ fst (run env log) = Ok (error_body (exn_str e), 500)).
Proof.
  intros Hgate Habsent.
  assert (weighted_score_of score_result = PyInt 0) as Hws
    by (unfold weighted_score_of; rewrite Habsent; reflexivity).
  assert (py_lt_80 (weighted_score_of score_result) = Ok true) as Hlt
    by (rewrite Hws; reflexivity).
  assert (gate_entry true job_data score_result = rejected_entry (PyInt 0))
    as Hentry by (unfold gate_entry; rewrite Hws; reflexivity).
  split; [exact Hws |]. split; [exact Hlt |]. split; [reflexivity |].
  split.
  - intros id Hid.
    pose proof (gate_set_calls _ log _ _ _ _ Hgate Hid Hlt) as Hcalls.
    rewrite Hentry in Hcalls.
    split; [exact Hcalls |].
    split; [unfold decisions; rewrite Hcalls; reflexivity |].
    split.
    + intros Hfault. rewrite <- Hentry in Hfault. unfold run_log.
      rewrite (run_stored _ log _ _ _ _ Hgate Hid Hlt Hfault).
      unfold gate_body. rewrite Hws, Hentry.
      repeat split; try reflexivity.
      unfold firestore_set; cbn [snd application_log]. apply lookup_insert_eq.
    + intros e Hfault. rewrite <- Hentry in Hfault.
      rewrite (run_write_failed _ log _ _ _ _ _ Hgate Hid Hlt Hfault).
      reflexivity.
  - intros e Hid. exact (gate_no_document _ log _ _ _ _ Hgate Hlt Hid).
Qed.

Lemma absent_score_witness :
  fst (run env_no_score ∅) = Ok (rejected_body (PyInt 0), 200)
  /\ decisions (run_events env_no_score ∅)
       = [("j1", Some (Value (PyStr "REJECTED")),
                 Some (Value (PyStr "Score below 80% threshold")))].
Proof.
  destruct (absent_score_is_rejected env_no_score ∅ request_j1
              result_no_score env_no_score_reaches_gate eq_refl)
    as (_ & _ & _ & H & _).
  destruct (H "j1" eq_refl) as (_ & Hdec & Hresp & _).
  split; [apply Hresp; reflexivity | exact Hdec].
Defined.

(** ** Responses *)

Lemma reaches_gate_request env job_data job_data' score_result :
  request_get_json env = Ok (PyDict job_data) ->
  reaches_gate env job_data' score_result ->
  job_data' = job_data.
Proof. intros H [H' _ _]. congruence. Qed.

(** C7: when a validated request runs through the [try] block without an
    exception, the answer is 200; its body is status "rejected" with the
    score when the weighted score is below 80, and status "success" with
    the score and the score result as "details" when it is at least 80;
    the rejected body has no "details". *)
Theorem completed_request_response
    (env : Env) (log : gmap string (gmap string field))
    (job_data : gmap string pyval) (body : gmap string pyval) (code : Z)
    (st' : state) :
  request_get_json env = Ok (PyDict job_data) ->
  validated job_data ->
  handler_body env (State log []) = (Ok (body, code), st') ->
  fst (run env log) = Ok (body, code)
  /\ code = 200
  /\ exists score_result,
       reaches_gate env job_data score_result
       /\ let weighted_score := weighted_score_of score_result in
          (below_threshold weighted_score ->
             body = rejected_body weighted_score
             /\ body !! "status" = Some (PyStr "rejected")
             /\ body !! "score" = Some weighted_score
             /\ body !! "details" = None
             /\ dom body = {[ "status"; "score" ]})
          /\ (at_least_threshold weighted_score ->
             body = success_body weighted_score (PyDict score_result)
             /\ body !! "status" = Some (PyStr "success")
             /\ body !! "score" = Some weighted_score
             /\ body !! "details" = Some (PyDict score_result)
             /\ dom body = {[ "status"; "score"; "details" ]}).
Proof.
  intros Hbody Hval Hrun.
  split; [rewrite run_except, Hrun; reflexivity |].
  pose proof (body_spec_holds env log) as Hspec. rewrite Hrun in Hspec.
  inversion Hspec
    as [| jd Hjd Hnval | | | | jd sr id below Hgate Hid Hlt Hfault];
    subst.
  - rewrite Hbody in Hjd. injection Hjd as <-. contradiction.
  - pose proof (reaches_gate_request _ _ _ _ Hbody Hgate) as ->.
    split; [reflexivity |]. exists sr. split; [exact Hgate |].
    cbv zeta. split; intros Hcmp.
    + apply py_lt_80_true in Hcmp. rewrite Hcmp in Hlt. injection Hlt as <-.
      unfold gate_body. repeat split; reflexivity.
    + assert (py_lt_80 (weighted_score_of sr) = Ok false) as Hcmp'
        by (apply py_lt_80_false; left; exact Hcmp).
      rewrite Hcmp' in Hlt. injection Hlt as <-.
      unfold gate_body. repeat split; reflexivity.
Qed.

Lemma completed_request_witness :
  fst (run env_accept ∅)
    = Ok (success_body (PyInt 92) (PyDict result_92), 200)
  /\ fst (run env_reject ∅) = Ok (rejected_body (PyInt 35), 200).
Proof.
  split.
  - apply (completed_request_response env_accept ∅ request_j1
             (success_body (PyInt 92) (PyDict result_92)) 200
             (State (firestore_set "j1"
                       (ready_entry (PyInt 92) (PyDict result_92)
                          (PyDict request_j1)) ∅)
                [Generate (scoring_request env_accept
                             (field_of request_j1 "job_description"));
                 DocumentSet "j1"
                   (ready_entry (PyInt 92) (PyDict result_92)
                      (PyDict request_j1)) true]));
      [reflexivity | split; reflexivity | reflexivity].
  - apply (completed_request_response env_reject ∅ request_j2
             (rejected_body (PyInt 35)) 200
             (State (firestore_set "j2" (rejected_entry (PyInt 35)) ∅)
                [Generate (scoring_request env_reject
                             (field_of request_j2 "job_description"));
                 DocumentSet "j2" (rejected_entry (PyInt 35)) true]));
      [reflexivity | split; reflexivity | reflexivity].
Defined.

(** ** The audit log *)

(** A run changes the log by the writes the store took. *)
Lemma run_cases (env : Env) (log : gmap string (gmap string field)) :
  (run_log env log = log /\ stored_writes (run_events env log) = []
   /\ (length (set_calls (run_events env log)) <= 1)%nat
   /\ (length (model_calls (run_events env log)) <= 1)%nat
   /\ forall body, fst (run env log) <> Ok (body, 200))
  \/ (exists job_data score_result id below,
        reaches_gate env job_data score_result
        /\ field_of job_data "job_id" = PyStr id
        /\ py_lt_80 (weighted_score_of score_result) = Ok below
        /\ set_fault env id (gate_entry below job_data score_result) = None
        /\ run env log
           = (Ok (gate_body below score_result, 200),
              State (firestore_set id
                       (gate_entry below job_data score_result) log)
                [Generate (scoring_request env
                             (field_of job_data "job_description"));
                 DocumentSet id (gate_entry below job_data score_result)
                   true])).
Proof.
  unfold run_log, run_events. rewrite run_except.
  destruct (body_spec_holds env log)
    as [Hbad | jd Hjd Hnval | jd e Hjd Hval Hclient
        | jd e Hjd Hval Hclient Hfail
        | jd sr id below e Hgate Hid Hlt Hfault
        | jd sr id below Hgate Hid Hlt Hfault];
    [left | left | left | left | left | right];
    try (cbn; repeat split; try reflexivity; try lia; discriminate).
  exists jd, sr, id, below.
  split; [exact Hgate |].
  split; [destruct (document_ok _ _ _ Hid) as [H _]; exact H |].
  split; [exact Hlt |]. split; [exact Hfault |]. reflexivity.
Qed.

Lemma gate_entry_shape below job_data score_result :
  entry_shape (gate_entry below job_data score_result).
Proof.
  destruct below; [left | right]; unfold gate_entry; repeat split;
    reflexivity.
Qed.

(** C2, as the code has it: a request that arrives at the gate, for which
    [document(job_id)] returns, whose weighted score is a number and whose
    entry the store takes, writes exactly one entry, on the document
    [job_id], with the status fixed by the comparison with 80; a request
    that fails the validation writes none. *)
Theorem one_entry_per_stored_decision
    (env : Env) (log : gmap string (gmap string field))
    (job_data : gmap string pyval) :
  request_get_json env = Ok (PyDict job_data) ->
  (~ validated job_data ->
     stored_writes (run_events env log) = [] /\ run_log env log = log)
  /\ (forall score_result id,
        reaches_gate env job_data score_result ->
        document env (field_of job_data "job_id") = Ok id ->
        py_number (weighted_score_of score_result) <> None ->
        (forall below,
           py_lt_80 (weighted_score_of score_result) = Ok below ->
           set_fault env id (gate_entry below job_data score_result)
           = None) ->
        exists entry,
          stored_writes (run_events env log) = [(id, entry)]
          /\ field_of job_data "job_id" = PyStr id
          /\ run_log env log = firestore_set id entry log
          /\ (below_threshold (weighted_score_of score_result) ->
              entry !! "status" = Some (Value (PyStr "REJECTED")))
          /\ (~ below_threshold (weighted_score_of score_result) ->
              entry !! "status"
              = Some (Value (PyStr "READY_FOR_SUBMISSION")))).
Proof.
  intros Hbody. split.
  - intros Hnval. unfold run_events, run_log.
    rewrite (run_invalid _ log _ Hbody Hnval). split; reflexivity.
  - intros sr id Hgate Hid Hnum Hstore.
    destruct (py_lt_80 (weighted_score_of sr)) as [below | e] eqn:Hlt.
    2:{ exfalso. apply Hnum, py_lt_80_raises. eauto. }
    exists (gate_entry below job_data sr). unfold run_events, run_log.
    rewrite (run_stored _ log _ _ _ _ Hgate Hid Hlt (Hstore _ eq_refl)).
    split; [reflexivity |].
    split; [destruct (document_ok _ _ _ Hid) as [H _]; exact H |].
    split; [reflexivity |].
    split; intros Hcmp.
    + apply py_lt_80_true in Hcmp. rewrite Hcmp in Hlt. injection Hlt as <-.
      reflexivity.
    + destruct below; [| reflexivity].
      exfalso. apply Hcmp, py_lt_80_true, Hlt.
Qed.

Lemma one_entry_witness :
  exists entry,
    stored_writes (run_events env_accept ∅) = [("j1", entry)]
    /\ run_log env_accept ∅ = firestore_set "j1" entry ∅
    /\ entry !! "status" = Some (Value (PyStr "READY_FOR_SUBMISSION")).
Proof.
  destruct (one_entry_per_stored_decision env_accept ∅ request_j1 eq_refl)
    as [_ H].
  destruct (H result_92 "j1" env_accept_reaches_gate eq_refl)
    as (entry & Hw & _ & Hlog & _ & Hready);
    [discriminate | reflexivity |].
  exists entry. split; [exact Hw |]. split; [exact Hlog |].
  apply Hready. intros Hbelow. apply py_lt_80_true in Hbelow.
  discriminate Hbelow.
Defined.

Lemma env_store_down_reaches_gate :
  reaches_gate env_store_down request_j1 result_92.
Proof.
  split; [reflexivity | split; reflexivity | reflexivity |].
  exists (Some "{}"). split; reflexivity.
Qed.

Lemma env_text_score_reaches_gate :
  reaches_gate env_text_score request_j1 result_text_score.
Proof.
  split; [reflexivity | split; reflexivity | reflexivity |].
  exists (Some "{}"). split; reflexivity.
Qed.

Lemma env_numeric_id_reaches_gate :
  reaches_gate env_numeric_id request_numeric_id result_92.
Proof.
  split; [reflexivity | split; reflexivity | reflexivity |].
  exists (Some "{}"). split; reflexivity.
Qed.

Lemma env_slash_id_reaches_gate :
  reaches_gate env_slash_id request_slash_id result_92.
Proof.
  split; [reflexivity | split; reflexivity | reflexivity |].
  exists (Some "{}"). split; reflexivity.
Qed.

(** C2 fails as stated.  Four requests that pass the validation and arrive
    at the gate, and leave no entry: the store refuses the write of the
    first; the score of the second is the string "high", on which the
    comparison raises before any [set] call; the [job_id] of the third is
    the number 7 and that of the fourth the string "a/b", neither of which
    [document] takes. *)
Lemma gated_request_without_entry :
  (reaches_gate env_store_down request_j1 result_92
   /\ stored_writes (run_events env_store_down ∅) = []
   /\ run_log env_store_down ∅ = ∅
   /\ fst (run env_store_down ∅)
      = Ok (error_body (exn_str store_unavailable), 500))
  /\ (reaches_gate env_text_score request_j1 result_text_score
      /\ set_calls (run_events env_text_score ∅) = []
      /\ run_log env_text_score ∅ = ∅
      /\ fst (run env_text_score ∅)
         = Ok (error_body
                 "'<' not supported between instances of 'str' and 'int'",
               500))
  /\ (reaches_gate env_numeric_id request_numeric_id result_92
      /\ set_calls (run_events env_numeric_id ∅) = []
      /\ run_log env_numeric_id ∅ = ∅
      /\ fst (run env_numeric_id ∅)
         = Ok (error_body
                 "sequence item 1: expected str instance, int found",
               500))
  /\ (reaches_gate env_slash_id request_slash_id result_92
      /\ set_calls (run_events env_slash_id ∅) = []
      /\ run_log env_slash_id ∅ = ∅
      /\ fst (run env_slash_id ∅)
         = Ok (error_body (exn_str odd_path), 500)).
Proof.
  split; [| split; [| split]].
  - split; [exact env_store_down_reaches_gate |]. repeat split; reflexivity.
  - split; [exact env_text_score_reaches_gate |]. repeat split; reflexivity.
  - split; [exact env_numeric_id_reaches_gate |]. repeat split; reflexivity.
  - split; [exact env_slash_id_reaches_gate |]. repeat split; reflexivity.
Qed.

(** ** Failures after validation *)

(** C5: whatever raises after the validation (the scoring call, the
    decoding of its answer, the comparison, the store), the answer is 500
    with the body {status: "error", message: str(e)}, the same for every
    kind; the model is called at most once and the store at most once
    (nothing is tried again), the log is left as it was; and when it is
    the scoring call that raises, or what is evaluated before it, no [set]
    call is made at all. *)
Theorem failure_is_server_error
    (env : Env) (log : gmap string (gmap string field))
    (job_data : gmap string pyval) (e : exn) :
  request_get_json env = Ok (PyDict job_data) ->
  validated job_data ->
  fails_after_validation env job_data e ->
  fst (run env log) = Ok (error_body (exn_str e), 500)
  /\ error_body (exn_str e) !! "status" = Some (PyStr "error")
  /\ error_body (exn_str e) !! "message" = Some (PyStr (exn_str e))
  /\ dom (error_body (exn_str e)) = {[ "status"; "message" ]}
  /\ run_log env log = log
  /\ stored_writes (run_events env log) = []
  /\ (length (model_calls (run_events env log)) <= 1)%nat
  /\ (length (set_calls (run_events env log)) <= 1)%nat
  /\ (forall e',
        client_fault env = Some e' ->
        e' = e
        /\ model_calls (run_events env log) = []
        /\ set_calls (run_events env log) = [])
  /\ (forall e',
        client_fault env = None ->
        generate_content env
          (scoring_request env (field_of job_data "job_description"))
        = Raise e' ->
        e' = e
        /\ model_calls (run_events env log)
           = [scoring_request env (field_of job_data "job_description")]
        /\ set_calls (run_events env log) = []).
Proof.
  intros Hbody Hval Hfail. unfold run_log, run_events.
  destruct Hfail as [e Hclient | e Hclient Hfail
                     | sr id below e Hgate Hid Hlt Hfault].
  - rewrite (run_failed_before_call _ log _ _ Hbody Hval Hclient).
    (do 6 (split; [reflexivity |])). split; [cbn; lia |].
    split; [cbn; lia |]. split.
    + intros e' He'. rewrite Hclient in He'. injection He' as <-.
      repeat split; reflexivity.
    + intros e' He'. rewrite Hclient in He'. discriminate He'.
  - rewrite (run_failed_before_write _ log _ _ Hbody Hval Hclient Hfail).
    (do 6 (split; [reflexivity |])). split; [cbn; lia |].
    split; [cbn; lia |]. split.
    + intros e' He'. rewrite Hclient in He'. discriminate He'.
    + intros e' _ Hgen. split; [| split; reflexivity].
      destruct Hfail as [e Hgen' | text e Hgen' _ | text v e Hgen' _ _
                         | sr e [_ _ _ (text & Hgen' & _)] _
                         | sr below e [_ _ _ (text & Hgen' & _)] _ _];
        congruence.
  - rewrite (run_write_failed _ log _ _ _ _ _ Hgate Hid Hlt Hfault).
    (do 6 (split; [reflexivity |])). split; [cbn; lia |].
    split; [cbn; lia |]. split.
    + intros e' He'. rewrite (gate_client _ _ _ Hgate) in He'.
      discriminate He'.
    + intros e' _ Hgen. destruct Hgate as [_ _ _ (text & Hgen' & _)].
      congruence.
Qed.

Lemma failure_witness :
  (fst (run env_model_down ∅)
     = Ok (error_body "transport failure", 500)
   /\ run_log env_model_down ∅ = ∅)
  /\ (fst (run env_no_clients ∅)
        = Ok (error_body "name 'gemini_client' is not defined", 500)
      /\ model_calls (run_events env_no_clients ∅) = []).
Proof.
  split; [| destruct (failure_is_server_error env_no_clients ∅ request_j1
                       (Exn "NameError" "name 'gemini_client' is not defined")
                       eq_refl (conj eq_refl eq_refl)
                       (FailBeforeCall env_no_clients request_j1 _ eq_refl))
             as (Hresp & _ & _ & _ & _ & _ & _ & _ & Hcall & _);
           split; [exact Hresp | apply (Hcall _ eq_refl)]].
  destruct (failure_is_server_error env_model_down ∅ request_j1
              transport_failure eq_refl (conj eq_refl eq_refl)
              (FailBeforeWrite env_model_down request_j1 transport_failure
                 eq_refl
                 (FailModelCall env_model_down request_j1 transport_failure
                    eq_refl)))
    as (Hresp & _ & _ & _ & Hlog & _).
  split; [exact Hresp | exact Hlog].
Defined.

(** C6 fails as stated: no run answers 200 after a [set] call that the
    store refused. *)
Lemma no_success_after_failed_write :
  ~ exists env log id entry body,
      DocumentSet id entry false ∈ run_events env log
      /\ fst (run env log) = Ok (body, 200).
Proof.
  intros (env & log & id & entry & body & Hin & Hresp).
  destruct (run_cases env log)
    as [(_ & _ & _ & _ & Hno)
        | (jd & sr & id' & below & _ & _ & _ & _ & Hrun)].
  - exact (Hno body Hresp).
  - unfold run_events in Hin. rewrite Hrun in Hin. cbn in Hin.
    apply elem_of_cons in Hin as [Hin | Hin]; [discriminate Hin |].
    apply elem_of_cons in Hin as [Hin | Hin]; [discriminate Hin |].
    apply elem_of_nil in Hin. exact Hin.
Qed.

(** C6, as the code has it: when the store refuses the write, the
    exception reaches the [except] clause and the answer is 500 with the
    error body, never the score; and a 200 answer comes only after a write
    that the store took. *)
Theorem failed_write_is_server_error
    (env : Env) (log : gmap string (gmap string field)) :
  (forall id entry,
     DocumentSet id entry false ∈ run_events env log ->
     exists e,
       set_fault env id entry = Some e
       /\ fst (run env log) = Ok (error_body (exn_str e), 500)
       /\ run_log env log = log)
  /\ (forall body,
        fst (run env log) = Ok (body, 200) ->
        exists id entry,
          stored_writes (run_events env log) = [(id, entry)]
          /\ run_log env log !! id = Some entry).
Proof.
  split.
  - intros id entry. unfold run_events, run_log. rewrite run_except.
    destruct (body_spec_holds env log)
      as [Hbad | jd Hjd Hnval | jd e Hjd Hval Hclient
          | jd e Hjd Hval Hclient Hfail
          | jd sr id' below e Hgate Hid Hlt Hfault
          | jd sr id' below Hgate Hid Hlt Hfault];
      cbn; intros Hin;
      repeat (apply elem_of_cons in Hin as [Hin | Hin];
              [try discriminate Hin |]);
      try (apply elem_of_nil in Hin; contradiction).
    injection Hin as -> ->. exists e. repeat split. exact Hfault.
  - intros body Hresp.
    destruct (run_cases env log)
      as [(_ & _ & _ & _ & Hno)
          | (jd & sr & id & below & _ & _ & _ & _ & Hrun)].
    + destruct (Hno body Hresp).
    + exists id, (gate_entry below jd sr). unfold run_events, run_log.
      rewrite Hrun. split; [reflexivity |]. apply lookup_insert_eq.
Qed.

Lemma failed_write_witness :
  fst (run env_store_down ∅)
  = Ok (error_body (exn_str store_unavailable), 500).
Proof.
  destruct (failed_write_is_server_error env_store_down ∅) as [H _].
  destruct (H "j1" (ready_entry (PyInt 92) (PyDict result_92)
                      (PyDict request_j1)))
    as (e & He & Hresp & _).
  - apply list_elem_of_In. right. left. reflexivity.
  - injection He as <-. exact Hresp.
Defined.

(** ** Entries of the log *)

(** A run leaves an entry as it was, or puts an entry of the gate. *)
Lemma run_log_lookup env log id d :
  run_log env log !! id = Some d ->
  log !! id = Some d \/ entry_shape d.
Proof.
  destruct (run_cases env log)
    as [(Hlog & _) | (jd & sr & id' & below & _ & _ & _ & _ & Hrun)].
  - rewrite Hlog. auto.
  - unfold run_log. rewrite Hrun. cbn [snd application_log].
    unfold firestore_set. rewrite lookup_insert.
    destruct (decide (id' = id)) as [-> | Hne]; [| auto].
    intros [= <-]. right. apply gate_entry_shape.
Qed.

Lemma serve_preserves_shape envs :
  forall log,
    (forall id d, log !! id = Some d -> entry_shape d) ->
    forall id d, serve envs log !! id = Some d -> entry_shape d.
Proof.
  induction envs as [| env envs IH]; intros log Hlog id d; simpl.
  - apply Hlog.
  - apply IH. intros id' d' H.
    destruct (run_log_lookup _ _ _ _ H) as [H' | H']; eauto.
Qed.

(** C8: every entry of the log, after any sequence of requests served
    from an empty log, has the fields of its status: a REJECTED entry has
    status, score, reason and timestamp and neither gemini_details nor
    job_data; a READY_FOR_SUBMISSION entry has status, score,
    gemini_details, job_data and timestamp and no reason. *)
Theorem persisted_entry_fields
    (envs : list Env) (id : string) (d : gmap string field) :
  serve envs ∅ !! id = Some d ->
  (d !! "status" = Some (Value (PyStr "REJECTED"))
   /\ dom d = {[ "status"; "score"; "reason"; "timestamp" ]}
   /\ d !! "gemini_details" = None /\ d !! "job_data" = None)
  \/ (d !! "status" = Some (Value (PyStr "READY_FOR_SUBMISSION"))
      /\ dom d
         = {[ "status"; "score"; "gemini_details"; "job_data"; "timestamp" ]}
      /\ d !! "reason" = None).
Proof.
  intros H. apply (serve_preserves_shape envs ∅) in H; [exact H |].
  intros id' d' H'. rewrite lookup_empty in H'. discriminate H'.
Qed.

Lemma persisted_entry_witness :
  dom (rejected_entry (PyInt 35))
  = {[ "status"; "score"; "reason"; "timestamp" ]}.
Proof.
  destruct (persisted_entry_fields [env_accept; env_reject] "j2"
              (rejected_entry (PyInt 35)) eq_refl)
    as [(_ & H & _) | (H & _)]; [exact H | discriminate H].
Defined.

(** ** Overwrite *)

Lemma stored_write_log env log id d :
  DocumentSet id d true ∈ run_events env log ->
  run_log env log = firestore_set id d log.
Proof.
  unfold run_events, run_log. rewrite run_except.
  destruct (body_spec_holds env log)
    as [Hbad | jd Hjd Hnval | jd e Hjd Hval Hclient
        | jd e Hjd Hval Hclient Hfail
        | jd sr id' below e Hgate Hid Hlt Hfault
        | jd sr id' below Hgate Hid Hlt Hfault];
    cbn; intros Hin;
    repeat (apply elem_of_cons in Hin as [Hin | Hin];
            [try discriminate Hin |]);
    try (apply elem_of_nil in Hin; contradiction).
  injection Hin as -> ->. reflexivity.
Qed.

(** C9: when two requests in a row each get a write to the same document
    stored, the log then holds the second entry at that key and is the log
    in which only the second write was made: nothing of the first entry
    is left, and no other key is added. *)
Theorem second_write_replaces_first
    (env1 env2 : Env) (log : gmap string (gmap string field))
    (id : string) (d1 d2 : gmap string field) :
  DocumentSet id d1 true ∈ run_events env1 log ->
  DocumentSet id d2 true ∈ run_events env2 (run_log env1 log) ->
  serve [env1; env2] log !! id = Some d2
  /\ serve [env1; env2] log = firestore_set id d2 log
  /\ firestore_set id d2 (firestore_set id d1 log) = firestore_set id d2 log
  /\ dom (serve [env1; env2] log) = {[ id ]} ∪ dom log.
Proof.
  intros H1 H2. cbn [serve].
  rewrite (stored_write_log _ _ _ _ H2), (stored_write_log _ _ _ _ H1).
  unfold firestore_set. rewrite insert_insert_eq.
  repeat split.
  - apply lookup_insert_eq.
  - apply dom_insert_L.
Qed.

Lemma second_write_witness :
  serve [env_accept; env_rescore] ∅ !! "j1"
  = Some (rejected_entry (PyInt 35)).
Proof.
  apply (second_write_replaces_first env_accept env_rescore ∅ "j1"
           (ready_entry (PyInt 92) (PyDict result_92) (PyDict request_j1))
           (rejected_entry (PyInt 35))).
  - apply list_elem_of_In. right. left. reflexivity.
  - apply list_elem_of_In. right. left. reflexivity.
Defined.

(** * Further properties of the handler and of start-up *)

Lemma run_from_any_log (env : Env) (log : gmap string (gmap string field)) :
  run env log
  = (fst (run env ∅),
     State (apply_write (stored_write env) log) (run_events env ∅)).
Proof.
  unfold stored_write, run_events.
  destruct (body_spec_holds env ∅)
    as [Hbad | jd Hjd Hnval | jd e Hjd Hval Hclient
        | jd e Hjd Hval Hclient Hfail
        | jd sr id below e Hgate Hid Hlt Hfault
        | jd sr id below Hgate Hid Hlt Hfault].
  - rewrite !(run_bad_body _ _ Hbad). reflexivity.
  - rewrite !(run_invalid _ _ _ Hjd Hnval). reflexivity.
  - rewrite !(run_failed_before_call _ _ _ _ Hjd Hval Hclient). reflexivity.
  - rewrite !(run_failed_before_write _ _ _ _ Hjd Hval Hclient Hfail).
    reflexivity.
  - rewrite !(run_write_failed _ _ _ _ _ _ _ Hgate Hid Hlt Hfault). reflexivity.
  - rewrite !(run_stored _ _ _ _ _ _ Hgate Hid Hlt Hfault). reflexivity.
Qed.


(** X1: the handler never reads the audit log: the answer and the outbound
    calls of a run are the same from every log, and the log after the run
    is the log before it with the stored write, if any, applied. *)
Theorem log_is_never_read
    (env : Env) (log1 log2 : gmap string (gmap string field)) :
  fst (run env log1) = fst (run env log2)
  /\ run_events env log1 = run_events env log2
  /\ run_log env log1 = apply_write (stored_write env) log1
  /\ run_log env log2 = apply_write (stored_write env) log2.
Proof.
  unfold run_events, run_log.
  rewrite (run_from_any_log env log1), (run_from_any_log env log2).
  repeat split; reflexivity.
Qed.

(** What a stored write is: the entry of the gate, on the document named by
    the request's [job_id], in a run answered 200. *)
Lemma stored_write_spec (env : Env) :
  match stored_write env with
  | Some (id, d) =>
      exists job_data score_result below,
        reaches_gate env job_data score_result
        /\ field_of job_data "job_id" = PyStr id
        /\ py_lt_80 (weighted_score_of score_result) = Ok below
        /\ d = gate_entry below job_data score_result
        /\ fst (run env ∅) = Ok (gate_body below score_result, 200)
  | None => forall body, fst (run env ∅) <> Ok (body, 200)
  end.
Proof.
  unfold stored_write.
  destruct (run_cases env ∅)
    as [(_ & Hw & _ & _ & Hno)
        | (jd & sr & id & below & Hgate & Hid & Hlt & _ & Hrun)].
  - rewrite Hw. exact Hno.
  - unfold run_events. rewrite Hrun. cbn.
    exists jd, sr, below.
    split; [exact Hgate |]. split; [exact Hid |]. split; [exact Hlt |].
    split; reflexivity.
Qed.

Lemma run_log_apply (env : Env) (log : gmap string (gmap string field)) :
  run_log env log = apply_write (stored_write env) log.
Proof. unfold run_log. rewrite run_from_any_log. reflexivity. Qed.

(** X2: a run leaves every document but the one named by the request's
    [job_id] as it was. *)
Theorem other_documents_untouched
    (env : Env) (log : gmap string (gmap string field))
    (job_data : gmap string pyval) (k : string) :
  request_get_json env = Ok (PyDict job_data) ->
  field_of job_data "job_id" <> PyStr k ->
  run_log env log !! k = log !! k.
Proof.
  intros Hbody Hk. rewrite run_log_apply.
  pose proof (stored_write_spec env) as Hw.
  destruct (stored_write env) as [[id d] |]; [| reflexivity].
  destruct Hw as (jd & sr & below & Hgate & Hid & _).
  pose proof (reaches_gate_request _ _ _ _ Hbody Hgate) as ->.
  cbn. unfold firestore_set. apply lookup_insert_ne.
  intros ->. contradiction.
Qed.

Lemma other_documents_untouched_witness :
  run_log env_reject (run_log env_accept ∅) !! "j1"
  = run_log env_accept ∅ !! "j1".
Proof.
  apply (other_documents_untouched env_reject (run_log env_accept ∅)
           request_j2 "j1").
  - reflexivity.
  - discriminate.
Defined.

(** X3: a run never removes a document, and adds at most one. *)
Theorem log_never_shrinks
    (env : Env) (log : gmap string (gmap string field)) :
  dom log ⊆ dom (run_log env log)
  /\ (size (run_log env log) <= S (size log))%nat
  /\ (forall k, k ∈ dom (run_log env log) -> k ∉ dom log ->
       exists d, stored_write env = Some (k, d)).
Proof.
  rewrite run_log_apply.
  destruct (stored_write env) as [[id d] |]; cbn; unfold firestore_set.
  - split; [| split].
    + rewrite dom_insert_L. set_solver.
    + destruct (log !! id) as [d' |] eqn:Hlook.
      * rewrite <- (insert_id log id d' Hlook) at 2.
        rewrite !map_size_insert. rewrite Hlook. cbn.
        destruct (<[id:=d']> log !! id); lia.
      * rewrite map_size_insert_None by exact Hlook. lia.
    + intros k Hin Hout. rewrite dom_insert_L in Hin.
      apply elem_of_union in Hin as [Hin | Hin]; [| contradiction].
      apply elem_of_singleton in Hin as ->. eauto.
  - split; [reflexivity | split; [lia |]]. intros k Hin Hout. contradiction.
Qed.

(** ** The test of line 46 *)

Lemma float_eqb_zero (f : float) :
  PrimFloat.eqb f 0%float = true
  <-> f = PrimFloat.zero \/ f = PrimFloat.neg_zero.
Proof.
  split.
  - rewrite FloatAxioms.eqb_spec. intros H.
    rewrite <- (SF2Prim_Prim2SF f).
    destruct (Prim2SF f) as [[|] | s | | s m e].
    + right. reflexivity.
    + left. reflexivity.
    + destruct s; discriminate H.
    + discriminate H.
    + destruct s; discriminate H.
  - intros [-> | ->]; reflexivity.
Qed.

Ltac falsy_elim H :=
  repeat (destruct H as [H | H]; try discriminate H); try discriminate H.

Lemma py_truthy_false (v : pyval) : py_truthy v = false <-> falsy v.
Proof.
  unfold falsy. destruct v as [| b | z | f | s | l | d]; cbn [py_truthy].
  - split; [auto | reflexivity].
  - destruct b; (split; [intros H; try discriminate H; auto 10 | intros H]).
    + falsy_elim H.
    + reflexivity.
  - rewrite negb_false_iff, Z.eqb_eq. split.
    + intros ->. auto 10.
    + intros H. falsy_elim H. injection H as ->. reflexivity.
  - rewrite negb_false_iff, float_eqb_zero. split.
    + intros [-> | ->]; auto 10.
    + intros H. falsy_elim H; injection H as ->; auto.
  - rewrite negb_false_iff, String.eqb_eq. split.
    + intros ->. auto 10.
    + intros H. falsy_elim H. injection H as ->. reflexivity.
  - split.
    + destruct l; [auto 10 | discriminate].
    + intros H. falsy_elim H. injection H as ->. reflexivity.
  - rewrite negb_false_iff, bool_decide_eq_true. split.
    + intros ->. auto 10.
    + intros H. falsy_elim H. injection H as ->. reflexivity.
Qed.

Lemma not_validated_falsy (job_data : gmap string pyval) :
  ~ validated job_data <->
  falsy (field_of job_data "job_id")
  \/ falsy (field_of job_data "job_description").
Proof.
  rewrite <- !py_truthy_false. unfold validated.
  destruct (py_truthy (field_of job_data "job_id")),
           (py_truthy (field_of job_data "job_description"));
    split; intros H; try tauto; try (intros [? ?]; discriminate);
    try (exfalso; apply H; split; reflexivity);
    destruct H; discriminate.
Qed.

(** X5: on a JSON-object body the answer is 400 exactly when [job_id] or
    [job_description] is absent or falsy: [null], [false], a zero number,
    or an empty string, list or object. *)
Theorem validation_rejects_exactly_falsy_fields
    (env : Env) (log : gmap string (gmap string field))
    (job_data : gmap string pyval) :
  request_get_json env = Ok (PyDict job_data) ->
  (exists body, fst (run env log) = Ok (body, 400))
  <-> falsy (field_of job_data "job_id")
      \/ falsy (field_of job_data "job_description").
Proof.
  intros Hbody. rewrite <- not_validated_falsy. split.
  - intros (body & Hresp) Hval.
    rewrite run_except in Hresp.
    destruct (body_spec_holds env log)
      as [Hbad | jd Hjd Hnval | jd e Hjd Hval' Hclient
          | jd e Hjd Hval' Hclient Hfail
          | jd sr id below e Hgate Hid Hlt Hfault
          | jd sr id below Hgate Hid Hlt Hfault];
      cbn in Hresp; try discriminate Hresp.
    rewrite Hbody in Hjd. injection Hjd as <-. contradiction.
  - intros Hnval. exists missing_fields_body.
    rewrite (run_invalid _ log _ Hbody Hnval). reflexivity.
Qed.

Lemma validation_rejects_exactly_falsy_fields_witness :
  exists body, fst (run env_zero_id ∅) = Ok (body, 400).
Proof.
  apply (validation_rejects_exactly_falsy_fields env_zero_id ∅
           request_zero_id eq_refl).
  left. right. right. left. reflexivity.
Defined.

(** ** Scores at the edge of the gate *)

(** X6: a weighted score that is the float [nan] is not below 80 for the
    comparison: the READY_FOR_SUBMISSION branch is taken.  When
    [document(job_id)] returns, the [set] call carries the
    READY_FOR_SUBMISSION entry and, the store taking it, the answer is 200
    success; no 200 answer of such a request is a rejection. *)
Theorem nan_score_is_accepted
    (env : Env) (log : gmap string (gmap string field))
    (job_data score_result : gmap string pyval) :
  reaches_gate env job_data score_result ->
  py_number (weighted_score_of score_result) = Some NaN ->
  py_lt_80 (weighted_score_of score_result) = Ok false
  /\ (forall id,
        document env (field_of job_data "job_id") = Ok id ->
        decisions (run_events env log)
          = [(id, Some (Value (PyStr "READY_FOR_SUBMISSION")), None)]
        /\ (set_fault env id
              (ready_entry (weighted_score_of score_result)
                           (PyDict score_result) (PyDict job_data)) = None ->
            fst (run env log)
            = Ok (success_body (weighted_score_of score_result)
                               (PyDict score_result), 200)))
  /\ (forall body,
        fst (run env log) = Ok (body, 200) ->
        body = success_body (weighted_score_of score_result)
                            (PyDict score_result)).
Proof.
  intros Hgate Hnan.
  assert (py_lt_80 (weighted_score_of score_result) = Ok false) as Hlt
    by (apply py_lt_80_false; right; exact Hnan).
  split; [exact Hlt |]. split.
  - intros id Hid. split.
    + unfold decisions. rewrite (gate_set_calls _ log _ _ _ _ Hgate Hid Hlt).
      reflexivity.
    + intros Hfault. rewrite (run_stored _ log _ _ _ _ Hgate Hid Hlt Hfault).
      reflexivity.
  - intros body Hresp. exact (gate_answer _ log _ _ _ _ Hgate Hlt Hresp).
Qed.

Lemma env_nan_reaches_gate : reaches_gate env_nan request_j1 result_nan.
Proof.
  split; [reflexivity | split; reflexivity | reflexivity |].
  exists (Some "{}"). split; reflexivity.
Qed.

Lemma nan_score_is_accepted_witness :
  fst (run env_nan ∅)
  = Ok (success_body (PyFloat PrimFloat.nan) (PyDict result_nan), 200).
Proof.
  destruct (nan_score_is_accepted env_nan ∅ request_j1 result_nan
              env_nan_reaches_gate eq_refl) as (_ & H & _).
  destruct (H "j1" eq_refl) as [_ Hresp].
  apply Hresp. reflexivity.
Defined.

(** X7: a [weighted_score] that is present but not a number ([null], a
    string, a list, an object) is not replaced by the default 0: the
    comparison raises, the answer is 500 with the TypeError text, and no
    [set] call is made. *)
Theorem non_numeric_score_is_server_error
    (env : Env) (log : gmap string (gmap string field))
    (job_data score_result : gmap string pyval) (v : pyval) :
  reaches_gate env job_data score_result ->
  score_result !! "weighted_score" = Some v ->
  py_number v = None ->
  let message := "'<' not supported between instances of '"
                 ++ type_name v ++ "' and 'int'" in
  run env log
  = (Ok (error_body message, 500),
     State log
       [Generate (scoring_request env (field_of job_data "job_description"));
        Print ("An error occurred: " ++ message)]).
Proof.
  intros Hgate Hv Hnum message.
  assert (weighted_score_of score_result = v) as Hws
    by (unfold weighted_score_of; rewrite Hv; reflexivity).
  assert (py_lt_80 (weighted_score_of score_result)
          = Raise (Exn "TypeError" message)) as Hlt.
  { rewrite Hws. destruct v; try discriminate Hnum; reflexivity. }
  rewrite (run_failed_before_write env log job_data
             (Exn "TypeError" message)
             (gate_request _ _ _ Hgate) (gate_validated _ _ _ Hgate)
             (gate_client _ _ _ Hgate)
             (FailCompare _ _ _ _ Hgate Hlt)).
  reflexivity.
Qed.

Lemma env_null_reaches_gate : reaches_gate env_null request_j1 result_null.
Proof.
  split; [reflexivity | split; reflexivity | reflexivity |].
  exists (Some "{}"). split; reflexivity.
Qed.

Lemma non_numeric_score_is_server_error_witness :
  fst (run env_null ∅)
  = Ok (error_body
          "'<' not supported between instances of 'NoneType' and 'int'",
        500).
Proof.
  rewrite (non_numeric_score_is_server_error env_null ∅ request_j1
             result_null PyNone env_null_reaches_gate eq_refl eq_refl).
  reflexivity.
Defined.

(** X8: the comparison with 80 is monotone over [bool], [int] and [float]
    scores alike: a score at least as large as an accepted one is
    accepted. *)
Theorem gate_is_monotone (a b : pyval) (qa qb : Q) :
  py_number a = Some (Finite qa) ->
  py_number b = Some (Finite qb) ->
  (qa <= qb)%Q ->
  py_lt_80 a = Ok false ->
  py_lt_80 b = Ok false.
Proof.
  intros Ha Hb Hle Hlt. apply py_lt_80_false. left.
  apply py_lt_80_false in Hlt as [Hlt | Hlt]; [| congruence].
  unfold at_least_threshold in *. rewrite Ha in Hlt. rewrite Hb.
  eapply Qle_trans; eassumption.
Qed.

Lemma gate_is_monotone_witness : py_lt_80 (PyInt 92) = Ok false.
Proof.
  apply (gate_is_monotone (PyFloat 80) (PyInt 92)
           (dyadic 5629499534213120 (-46)) (inject_Z 92)).
  - reflexivity.
  - reflexivity.
  - vm_compute. discriminate.
  - reflexivity.
Defined.

(** ** A [job_id] that is not a string *)

(** X9: the validation does not look at types.  A request whose [job_id] is
    truthy but not a string passes it and, when nothing raises before the
    call, the scoring model is called, but the request can never be
    logged: whatever the model answers, no [set] call is made, the log is
    unchanged and the answer is 500. *)
Theorem non_string_job_id_cannot_succeed
    (env : Env) (log : gmap string (gmap string field))
    (job_data : gmap string pyval) :
  request_get_json env = Ok (PyDict job_data) ->
  validated job_data ->
  (forall id, field_of job_data "job_id" <> PyStr id) ->
  set_calls (run_events env log) = []
  /\ run_log env log = log
  /\ (exists e, fst (run env log) = Ok (error_body (exn_str e), 500))
  /\ (client_fault env = None ->
      model_calls (run_events env log)
      = [scoring_request env (field_of job_data "job_description")])
  /\ (client_fault env <> None -> model_calls (run_events env log) = []).
Proof.
  intros Hbody Hval Hid. unfold run_events, run_log. rewrite run_except.
  destruct (body_spec_holds env log)
    as [Hbad | jd Hjd Hnval | jd e Hjd Hval' Hclient
        | jd e Hjd Hval' Hclient Hfail
        | jd sr id below e Hgate Hid' Hlt Hfault
        | jd sr id below Hgate Hid' Hlt Hfault].
  - rewrite Hbody in Hbad. destruct Hbad.
  - rewrite Hbody in Hjd. injection Hjd as <-. contradiction.
  - cbn. split; [reflexivity |]. split; [reflexivity |].
    split; [exists e; reflexivity |].
    split; [intros H; rewrite Hclient in H; discriminate H | reflexivity].
  - rewrite Hbody in Hjd. injection Hjd as <-.
    cbn. split; [reflexivity |]. split; [reflexivity |].
    split; [exists e; reflexivity |].
    split; [reflexivity | intros H; contradiction].
  - pose proof (reaches_gate_request _ _ _ _ Hbody Hgate) as ->.
    destruct (document_ok _ _ _ Hid') as [H _]. destruct (Hid id H).
  - pose proof (reaches_gate_request _ _ _ _ Hbody Hgate) as ->.
    destruct (document_ok _ _ _ Hid') as [H _]. destruct (Hid id H).
Qed.

Lemma non_string_job_id_cannot_succeed_witness :
  set_calls (run_events env_numeric_id ∅) = []
  /\ exists e, fst (run env_numeric_id ∅) = Ok (error_body (exn_str e), 500).
Proof.
  destruct (non_string_job_id_cannot_succeed env_numeric_id ∅
              request_numeric_id eq_refl (conj eq_refl eq_refl))
    as (Hset & _ & Hresp & _).
  - intros id. discriminate.
  - split; [exact Hset | exact Hresp].
Defined.

(** ** Answers, calls and the log together *)

(** X11: the outbound calls of a run.  The model is called at most once and
    the store at most once; a [set] call is made only after the one model
    call; a line is printed exactly when the answer is 500; and a 400
    answer comes with no call at all. *)
Theorem outbound_calls_discipline
    (env : Env) (log : gmap string (gmap string field)) :
  let evs := run_events env log in
  (length (model_calls evs) <= 1)%nat
  /\ (length (set_calls evs) <= 1)%nat
  /\ (set_calls evs <> [] ->
      exists req rest, evs = Generate req :: rest /\ model_calls evs = [req])
  /\ ((exists line, Print line ∈ evs)
      <-> exists body, fst (run env log) = Ok (body, 500))
  /\ (forall body, fst (run env log) = Ok (body, 400) -> evs = []).
Proof.
  unfold run_events. rewrite run_except.
  destruct (body_spec_holds env log)
    as [Hbad | jd Hjd Hnval | jd e Hjd Hval Hclient
        | jd e Hjd Hval Hclient Hfail
        | jd sr id below e Hgate Hid Hlt Hfault
        | jd sr id below Hgate Hid Hlt Hfault]; cbn;
    (split; [lia |]); (split; [lia |]).
  - split; [intros H; destruct (H eq_refl) |].
    split; [| intros body H; discriminate H].
    split; intros _; eexists; [reflexivity | apply list_elem_of_In; left; reflexivity].
  - split; [intros H; destruct (H eq_refl) |].
    split; [| reflexivity].
    split; [intros (line & Hin); apply elem_of_nil in Hin; destruct Hin
           | intros (body & H); discriminate H].
  - split; [intros H; destruct (H eq_refl) |].
    split; [| intros body H; discriminate H].
    split; intros _; eexists; [reflexivity | apply list_elem_of_In; left; reflexivity].
  - split; [intros H; destruct (H eq_refl) |].
    split; [| intros body H; discriminate H].
    split; intros _; eexists;
      [reflexivity | apply list_elem_of_In; right; left; reflexivity].
  - split; [intros _; eexists _, _; split; reflexivity |].
    split; [| intros body H; discriminate H].
    split; intros _; eexists;
      [reflexivity | apply list_elem_of_In; right; right; left; reflexivity].
  - split; [intros _; eexists _, _; split; reflexivity |].
    split; [| intros body H; discriminate H].
    split; [| intros (body & H); discriminate H].
    intros (line & Hin). apply list_elem_of_In in Hin.
    destruct Hin as [H | [H | []]]; discriminate H.
Qed.

(** X12: a 200 answer agrees with the entry it leaves in the log: the entry
    is on the document named by the request's [job_id], carries the score
    of the answer and the timestamp sentinel, and has status REJECTED for
    a "rejected" answer and READY_FOR_SUBMISSION for a "success" one; the
    latter also stores the answer's details and the whole request body. *)
Theorem success_answer_matches_entry
    (env : Env) (log : gmap string (gmap string field))
    (body : gmap string pyval) :
  fst (run env log) = Ok (body, 200) ->
  exists job_data id entry,
    request_get_json env = Ok (PyDict job_data)
    /\ field_of job_data "job_id" = PyStr id
    /\ run_log env log !! id = Some entry
    /\ entry !! "score" = Value <$> body !! "score"
    /\ entry !! "timestamp" = Some SERVER_TIMESTAMP
    /\ ((body !! "status" = Some (PyStr "rejected")
         /\ entry !! "status" = Some (Value (PyStr "REJECTED")))
        \/ (body !! "status" = Some (PyStr "success")
            /\ entry !! "status" = Some (Value (PyStr "READY_FOR_SUBMISSION"))
            /\ entry !! "gemini_details" = Value <$> body !! "details"
            /\ entry !! "job_data" = Some (Value (PyDict job_data)))).
Proof.
  intros Hresp.
  destruct (run_cases env log)
    as [(_ & _ & _ & _ & Hno)
        | (jd & sr & id & below & Hgate & Hid & Hlt & _ & Hrun)].
  - destruct (Hno body Hresp).
  - rewrite Hrun in Hresp. injection Hresp as <-.
    exists jd, id, (gate_entry below jd sr).
    split; [exact (gate_request _ _ _ Hgate) |]. split; [exact Hid |].
    split.
    { unfold run_log. rewrite Hrun. apply lookup_insert_eq. }
    destruct below; cbn.
    + split; [reflexivity |]. split; [reflexivity |]. left. split; reflexivity.
    + split; [reflexivity |]. split; [reflexivity |]. right.
      repeat split; reflexivity.
Qed.

Lemma success_answer_matches_entry_witness :
  exists entry,
    run_log env_accept ∅ !! "j1" = Some entry
    /\ entry !! "score" = Some (Value (PyInt 92)).
Proof.
  destruct (success_answer_matches_entry env_accept ∅
              (success_body (PyInt 92) (PyDict result_92)) eq_refl)
    as (jd & id & entry & Hbody & Hid & Hlook & Hscore & _).
  injection Hbody as <-. injection Hid as <-.
  exists entry. split; [exact Hlook | exact Hscore].
Defined.

(** ** The prompt *)

Lemma length_append (x y : string) :
  String.length (x ++ y) = (String.length x + String.length y)%nat.
Proof.
  induction x as [| c x IH]; [reflexivity |].
  change (S (String.length (x ++ y))
          = S (String.length x + String.length y)).
  rewrite IH. reflexivity.
Qed.

Lemma append_inj_r (s a b : string) : a ++ s = b ++ s -> a = b.
Proof.
  revert b. induction a as [| c a IH]; intros [| c' b] H.
  - reflexivity.
  - apply (f_equal String.length) in H.
    change (String.length s = S (String.length (b ++ s))) in H.
    rewrite length_append in H. lia.
  - apply (f_equal String.length) in H.
    change (S (String.length (a ++ s)) = String.length s) in H.
    rewrite length_append in H. lia.
  - change (String c (a ++ s) = String c' (b ++ s)) in H.
    injection H as -> H. f_equal. apply IH, H.
Qed.

(** X13: for job descriptions that are strings the prompt keeps them apart:
    with the same profile, two different job descriptions never give the
    same prompt. *)
Theorem prompt_determines_job_description (env : Env) (a b : string) :
  a <> b -> build_prompt env (PyStr a) <> build_prompt env (PyStr b).
Proof.
  unfold build_prompt, py_format. intros Hne H. apply Hne.
  repeat (apply String.app_inj in H).
  apply append_inj_r in H. exact H.
Qed.

Lemma prompt_determines_job_description_witness :
  build_prompt env_reject (PyStr "Unrelated retail job")
  <> build_prompt env_reject (PyStr "Unrelated retail jobs").
Proof.
  apply (prompt_determines_job_description env_reject). discriminate.
Defined.

(** ** Start-up *)

(** X14: start-up ends normally exactly when the schema file is read and
    decoded and the profile file is read, whatever the client constructors
    do; [db] is bound only if [gemini_client] is; and a line is printed
    exactly when one of the two is left unbound. *)
Theorem startup_survives_client_failure (s : Startup) :
  ((exists g, fst (module_init s) = Ok g)
   <-> exists text schema profile,
         read_file s "data/schema/score_schema.json" = Ok text
         /\ load_json s text = Ok schema
         /\ read_file s "data/master_profile.json" = Ok profile)
  /\ (forall g, fst (module_init s) = Ok g ->
       (db g = true -> gemini_client g = true)
       /\ (snd (module_init s) = [] <->
           gemini_client g = true /\ db g = true)
       /\ (length (snd (module_init s)) <= 1)%nat).
Proof.
  unfold module_init, init_clients.
  destruct (genai_Client s) as [[] | e1];
    [destruct (firestore_Client s) as [[] | e2] |];
    destruct (read_file s "data/schema/score_schema.json") as [text | e3];
    try destruct (load_json s text) as [schema | e4] eqn:Hload;
    try destruct (read_file s "data/master_profile.json") as [profile | e5];
    cbn; (split; [split |]);
    try (intros (g & H); discriminate H);
    try (intros (t & sc & p & H1 & H2 & H3); congruence);
    try (intros g H; discriminate H);
    try (intros _; eauto 10; fail);
    intros g [= <-]; cbn; (split; [auto |]);
    (split; [split |]; try lia);
    try (intros H; discriminate H); try (intros [H1 H2]; discriminate);
    auto.
Qed.

Lemma startup_survives_client_failure_witness :
  exists g,
    fst (module_init startup_no_credentials) = Ok g
    /\ gemini_client g = false /\ db g = false
    /\ length (snd (module_init startup_no_credentials)) = 1%nat.
Proof.
  destruct (startup_survives_client_failure startup_no_credentials)
    as [[_ H] _].
  destruct H as (g & Hg).
  - exists "{}", (PyDict ∅), "{}". repeat split; reflexivity.
  - exists g. split; [exact Hg |]. injection Hg as <-.
    repeat split; reflexivity.
Defined.

(** ** The log over a history *)

Lemma serve_app (envs1 envs2 : list Env)
    (log : gmap string (gmap string field)) :
  serve (envs1 ++ envs2) log = serve envs2 (serve envs1 log).
Proof.
  revert log. induction envs1 as [| env envs1 IH]; intros log; cbn.
  - reflexivity.
  - apply IH.
Qed.

(** X15: last write wins over any history: after any sequence of requests,
    a request whose write the store takes leaves its entry at its
    [job_id], and the other documents as the history left them. *)
Theorem last_stored_write_wins
    (envs : list Env) (env : Env) (log : gmap string (gmap string field))
    (id : string) (d : gmap string field) :
  DocumentSet id d true ∈ run_events env (serve envs log) ->
  serve (envs ++ [env]) log !! id = Some d
  /\ forall k, k <> id ->
       serve (envs ++ [env]) log !! k = serve envs log !! k.
Proof.
  intros Hw. rewrite serve_app. cbn [serve].
  rewrite (stored_write_log _ _ _ _ Hw). unfold firestore_set. split.
  - apply lookup_insert_eq.
  - intros k Hk. apply lookup_insert_ne. congruence.
Qed.

Lemma last_stored_write_wins_witness :
  serve ([env_accept; env_store_down] ++ [env_rescore]) ∅ !! "j1"
  = Some (rejected_entry (PyInt 35)).
Proof.
  apply (last_stored_write_wins [env_accept; env_store_down] env_rescore ∅
           "j1" (rejected_entry (PyInt 35))).
  apply list_elem_of_In. right. left. reflexivity.
Defined.

(** X16: the log changes only in a run that is answered 200. *)
Theorem log_changes_only_on_success
    (env : Env) (log : gmap string (gmap string field)) :
  run_log env log <> log ->
  exists body, fst (run env log) = Ok (body, 200).
Proof.
  intros Hchange.
  destruct (run_cases env log)
    as [(Hlog & _) | (jd & sr & id & below & _ & _ & _ & _ & Hrun)].
  - contradiction.
  - rewrite Hrun. eauto.
Qed.

Lemma log_changes_only_on_success_witness :
  exists body, fst (run env_reject ∅) = Ok (body, 200).
Proof.
  apply (log_changes_only_on_success env_reject ∅).
  intros H. apply (f_equal (fun m => m !! "j2")) in H.
  discriminate H.
Defined.
